(** * vape_database_api: the scraping service of [api_service.py]

    A shallow embedding of the request pipeline of [api_service.py] and the
    properties of its specification.

    The service drives two external collaborators, a headless browser
    (playwright) and a semantic query engine (agentql).  Both are opaque:
    the embedding takes what they answer from a [World], a function of the
    whole interaction so far, and records every call in a [Trace].  Python
    exceptions are explicit: a computation either [Returned] a value or
    [Raised] an exception, and [try_except] is the [try: ... except
    Exception] of the source.  Only exceptions that derive from
    [Exception] are modelled; cancellation is not.

    The detail pages of one request are fetched by concurrent tasks, each
    on a page of its own.  The embedding runs them in the order of the
    listing, which is the order in which [asyncio.gather] hands back their
    results; since the world may answer every call differently, this
    covers whatever the tasks can get from their pages. *)

From Stdlib Require Import List String Ascii ZArith Lia Bool.
Import ListNotations.

Open Scope string_scope.
Open Scope list_scope.
Open Scope Z_scope.

(** ** Python values and exceptions *)

(** What the query engine hands back: JSON-like data.  A dict is an
    association list read by first match.  Scalars other than strings are
    left out; no field of the service holds one. *)
#[local] Unset Elimination Schemes.
Inductive PyVal : Type :=
| PNone
| PStr (s : string)
| PList (l : list PyVal)
| PDict (d : list (string * PyVal)).
#[local] Set Elimination Schemes.

Inductive Exn : Type :=
| TypeError (msg : string)
| AttributeError (msg : string)
| ValidationError (msg : string)
| ExternalError (msg : string)
| HTTPException (status_code : Z) (detail : string).

(** [str(e)] *)
Definition exn_str (e : Exn) : string :=
  match e with
  | TypeError m | AttributeError m | ValidationError m | ExternalError m => m
  | HTTPException _ d => d
  end.

Inductive Res (A : Type) : Type :=
| Raised (e : Exn)
| Returned (a : A).
Arguments Raised {A} e.
Arguments Returned {A} a.

Definition res_bind {A B} (r : Res A) (k : A -> Res B) : Res B :=
  match r with
  | Raised e => Raised e
  | Returned a => k a
  end.

(** A list comprehension whose body can raise: the first failure aborts. *)
Fixpoint res_map {A B} (f : A -> Res B) (l : list A) : Res (list B) :=
  match l with
  | [] => Returned []
  | x :: l' =>
      res_bind (f x) (fun y =>
      res_bind (res_map f l') (fun ys => Returned (y :: ys)))
  end.

Fixpoint dict_get (d : list (string * PyVal)) (k : string) : option PyVal :=
  match d with
  | [] => None
  | (k', v) :: d' => if String.eqb k' k then Some v else dict_get d' k
  end.

(** [v.get(k)]: [None] for a missing key, [AttributeError] when [v] is not
    a dict. *)
Definition py_get (v : PyVal) (k : string) (default : PyVal) : Res PyVal :=
  match v with
  | PDict d =>
      Returned (match dict_get d k with Some x => x | None => default end)
  | PNone => Raised (AttributeError "'NoneType' object has no attribute 'get'")
  | PStr _ => Raised (AttributeError "'str' object has no attribute 'get'")
  | PList _ => Raised (AttributeError "'list' object has no attribute 'get'")
  end.

Fixpoint chars (s : string) : list PyVal :=
  match s with
  | EmptyString => []
  | String c s' => PStr (String c EmptyString) :: chars s'
  end.

(** The elements a [for] loop sees in [v[:5]]. *)
Definition slice5_iter (v : PyVal) : Res (list PyVal) :=
  match v with
  | PList l => Returned (firstn 5 l)
  | PStr s => Returned (firstn 5 (chars s))
  | PNone => Raised (TypeError "'NoneType' object is not subscriptable")
  | PDict _ => Raised (TypeError "unhashable type: 'slice'")
  end.

(** ** The pydantic models *)

Record ProductBase : Type := mkProductBase {
  name : string;
  link : string;
  img : string }.

Record ProductDetails : Type := mkProductDetails {
  base : ProductBase;
  Battery : option string;
  Max_Puff : option string;
  Display : option string;
  Nicotine : option string;
  E_liquid_Capacity : option string }.

Record SearchRequest : Type := mkSearchRequest {
  search_keyword : string;
  existing_product_names : list string }.

(** Validation of a required [str] field; [None] stands for an argument
    that was not passed. *)
Definition validate_str (field : string) (v : option PyVal) : Res string :=
  match v with
  | Some (PStr s) => Returned s
  | None => Raised (ValidationError (field ++ ": field required")%string)
  | Some PNone =>
      Raised (ValidationError (field ++ ": none is not an allowed value")%string)
  | Some _ => Raised (ValidationError (field ++ ": str type expected")%string)
  end.

(** Validation of an [Optional[str] = None] field. *)
Definition validate_opt_str (field : string) (v : option PyVal)
  : Res (option string) :=
  match v with
  | None | Some PNone => Returned None
  | Some (PStr s) => Returned (Some s)
  | Some _ => Raised (ValidationError (field ++ ": str type expected")%string)
  end.

(** [ProductBase(name=n, link=l, img=i)] *)
Definition ProductBase_init (n l i : option PyVal) : Res ProductBase :=
  res_bind (validate_str "name" n) (fun n' =>
  res_bind (validate_str "link" l) (fun l' =>
  res_bind (validate_str "img" i) (fun i' =>
  Returned (mkProductBase n' l' i')))).

(** [ProductBase] built from the dict [product] unpacked into keyword
    arguments; extra keys are ignored. *)
Definition ProductBase_kwargs (product : PyVal) : Res ProductBase :=
  match product with
  | PDict d =>
      ProductBase_init (dict_get d "name") (dict_get d "link")
                       (dict_get d "img")
  | _ => Raised (TypeError "argument after ** must be a mapping")
  end.

Definition has_key (d : list (string * PyVal)) (k : string) : bool :=
  match dict_get d k with Some _ => true | None => false end.

(** [ProductDetails] built from [product_details.dict()] and
    [detail_response], both unpacked into keyword arguments: the first dict
    has exactly the keys name, link and img, and a key passed twice is a
    [TypeError]. *)
Definition ProductDetails_merge (product_details : ProductBase)
    (detail_response : PyVal) : Res ProductDetails :=
  match detail_response with
  | PDict d =>
      if has_key d "name" || has_key d "link" || has_key d "img" then
        Raised (TypeError "got multiple values for keyword argument")
      else
        res_bind (validate_opt_str "Battery" (dict_get d "Battery"))
          (fun b =>
        res_bind (validate_opt_str "Max_Puff" (dict_get d "Max_Puff"))
          (fun m =>
        res_bind (validate_opt_str "Display" (dict_get d "Display"))
          (fun di =>
        res_bind (validate_opt_str "Nicotine" (dict_get d "Nicotine"))
          (fun n =>
        res_bind (validate_opt_str "E_liquid_Capacity"
                    (dict_get d "E_liquid_Capacity"))
          (fun e =>
        Returned (mkProductDetails product_details b m di n e))))))
  | _ => Raised (TypeError "argument after ** must be a mapping")
  end.

(** ** [urllib.parse.quote] with its default [safe='/'] *)

Definition is_unreserved (c : ascii) : bool :=
  let n := Z.of_nat (nat_of_ascii c) in
  ((65 <=? n) && (n <=? 90)) || ((97 <=? n) && (n <=? 122))
  || ((48 <=? n) && (n <=? 57))
  || (n =? 95) || (n =? 46) || (n =? 45) || (n =? 126) || (n =? 47).

Definition hex_digit (n : Z) : ascii :=
  ascii_of_nat (Z.to_nat (if n <? 10 then 48 + n else 55 + n)).

Fixpoint quote (s : string) : string :=
  match s with
  | EmptyString => EmptyString
  | String c s' =>
      if is_unreserved c then String c (quote s')
      else
        let n := Z.of_nat (nat_of_ascii c) in
        String "%" (String (hex_digit (n / 16))
                      (String (hex_digit (n mod 16)) (quote s')))
  end.

(** ** The outside world *)

Record Response : Type := mkResponse {
  resp_url : string;
  resp_status : Z;
  resp_headers : list (string * string) }.

Inductive Event : Type :=
| EPlaywrightStart
| EPlaywrightStop
| ELaunch (headless : bool) (timeout : Z)
| ENewContext
| ENewPage
| EGoto (url : string)
| EWheel (dx dy : Z)
| EQueryData (query : string)
| EWaitForLoadState (state : string)
| EBrowserClose
| ELogError (msg : string).

Definition Trace : Type := list Event.

(** What the browser and the query engine answer to a call, given
    everything that happened before it.  Starting and closing browsers,
    contexts and pages is taken to succeed; navigation, scrolling, waiting
    and querying can raise. *)
Record World : Type := mkWorld {
  goto_answer : Trace -> string -> Res (list Response);
  wheel_answer : Trace -> Z -> Z -> Res unit;
  wait_answer : Trace -> string -> Res unit;
  query_answer : Trace -> string -> Res PyVal }.

(** ** Computations: exceptions over a trace *)

Definition M (A : Type) : Type := Trace -> Res A * Trace.

Definition ret {A} (a : A) : M A := fun tr => (Returned a, tr).

Definition bind {A B} (m : M A) (k : A -> M B) : M B :=
  fun tr =>
    match m tr with
    | (Raised e, tr') => (Raised e, tr')
    | (Returned a, tr') => k a tr'
    end.

Notation "x <- m ;; k" := (bind m (fun x => k))
  (at level 61, m at next level, right associativity).
Notation "m ;;; k" := (bind m (fun _ => k))
  (at level 61, right associativity).

Definition lift {A} (r : Res A) : M A := fun tr => (r, tr).

Definition emit (e : Event) : M unit := fun tr => (Returned tt, tr ++ [e]).

(** [try: m except Exception as e: h e] *)
Definition try_except {A} (m : M A) (h : Exn -> M A) : M A :=
  fun tr =>
    match m tr with
    | (Raised e, tr') => h e tr'
    | (Returned a, tr') => (Returned a, tr')
    end.

(** [async with async_playwright() as playwright: body]: the driver is
    stopped on the way out, whether [body] returned or raised. *)
Definition with_playwright {A} (body : M A) : M A :=
  fun tr =>
    let '(r, tr') := body (tr ++ [EPlaywrightStart]) in
    (r, tr' ++ [EPlaywrightStop]).

(** [asyncio.gather] over the tasks: the results come in the order of the tasks.
    Every task works on a page of its own, so the tasks are run one after
    the other; a task that raises makes the gather raise. *)
Fixpoint gather {A} (tasks : list (M A)) : M (list A) :=
  match tasks with
  | [] => ret []
  | t :: ts => r <- t ;; rs <- gather ts ;; ret (r :: rs)
  end.

Definition logging_error (msg : string) : M unit := emit (ELogError msg).

(** ** Browser and query-engine calls *)

Section Service.

Variable w : World.

Definition page_goto (url : string) : M (list Response) :=
  fun tr => (goto_answer w tr url, tr ++ [EGoto url]).

Definition mouse_wheel (dx dy : Z) : M unit :=
  fun tr => (wheel_answer w tr dx dy, tr ++ [EWheel dx dy]).

Definition wait_for_load_state (state : string) : M unit :=
  fun tr => (wait_answer w tr state, tr ++ [EWaitForLoadState state]).

Definition query_data (query : string) : M PyVal :=
  fun tr => (query_answer w tr query, tr ++ [EQueryData query]).

Definition new_page : M unit := emit ENewPage.

(** [playwright.chromium.launch(headless=True, timeout=30000)] followed by
    [browser.new_context()] *)
Definition launch_context : M unit :=
  emit (ELaunch true 30000) ;;; emit ENewContext.

Definition browser_close : M unit := emit EBrowserClose.

(** ** The queries *)

Definition PRODUCT_DETAIL_QUERY : string :=
  "
    {
        Battery
        Max_Puff
        Display
        Nicotine
        E_liquid_Capacity
    }
    ".

Definition PRODUCT_INFO_QUERY : string :=
  "
    {
        product_name
        product_link
        product_img
    }
    ".

Definition PRODUCT_LIST_QUERY : string :=
  "
    {
        products(the first 5)[] {
            product_name
            product_link
            product_img
        }
    }
    ".

(** ** Detail extraction *)

Definition product_name_or_unknown (product : option ProductBase) : string :=
  match product with
  | Some p => name p
  | None => "Unknown"
  end.

Definition fetch_product_details (url : string)
    (product : option ProductBase) : M (option ProductDetails) :=
  new_page ;;;
  page_goto url ;;;
  mouse_wheel 0 3000 ;;;
  try_except
    (detail_response <- query_data PRODUCT_DETAIL_QUERY ;;
     product_details <-
       match product with
       | None =>
           product_info <- query_data PRODUCT_INFO_QUERY ;;
           n <- lift (py_get product_info "product_name" PNone) ;;
           l <- lift (py_get product_info "product_link" PNone) ;;
           i <- lift (py_get product_info "product_img" PNone) ;;
           lift (ProductBase_init (Some n) (Some l) (Some i))
       | Some p => ret (mkProductBase (name p) (link p) (img p))
       end ;;
     d <- lift (ProductDetails_merge product_details detail_response) ;;
     ret (Some d))
    (fun e =>
       let product_name := product_name_or_unknown product in
       logging_error ("Error fetching details for product " ++ product_name
                      ++ ": " ++ exn_str e)%string ;;;
       ret None).

(** ** Listing extraction *)

Definition get_product_names (url : string) : M (option (list ProductBase)) :=
  new_page ;;;
  page_goto url ;;;
  mouse_wheel 0 4000 ;;;
  try_except
    (response <- query_data PRODUCT_LIST_QUERY ;;
     products <- lift (py_get response "products" (PList [])) ;;
     first5 <- lift (slice5_iter products) ;;
     l <- lift (res_map ProductBase_kwargs first5) ;;
     ret (Some l))
    (fun e =>
       logging_error ("Error fetching products: " ++ exn_str e)%string ;;;
       ret None).

(** ** Fan-out and de-duplication *)

Fixpoint name_in (n : string) (names : list string) : bool :=
  match names with
  | [] => false
  | m :: names' => String.eqb n m || name_in n names'
  end.

Definition is_new (existing : list string) (p : ProductBase) : bool :=
  negb (name_in (name p) existing).

Definition fetch_product (product : ProductBase)
  : M (option ProductDetails) :=
  try_except
    (fetch_product_details (link product) (Some product))
    (fun e =>
       logging_error ("Error processing product: " ++ exn_str e)%string ;;;
       ret None).

Fixpoint not_none {A} (l : list (option A)) : list A :=
  match l with
  | [] => []
  | Some a :: l' => a :: not_none l'
  | None :: l' => not_none l'
  end.

Definition get_names_and_fetch (url : string) (existing : list string)
  : M (list ProductDetails) :=
  with_playwright
    (launch_context ;;;
     trunc_products <- get_product_names url ;;
     new_products <-
       lift (match trunc_products with
             | Some l => Returned (filter (is_new existing) l)
             | None => Raised (TypeError "'NoneType' object is not iterable")
             end) ;;
     let tasks := map fetch_product new_products in
     fetched_products <- gather tasks ;;
     browser_close ;;;
     ret (not_none fetched_products)).

(** ** Search and redirect handling *)

Definition search_url_of (keyword : string) : string :=
  ("https://demandvape.com/index.php?route=product/search&search="
   ++ quote keyword ++ "&category_id=1096")%string.

Fixpoint header_lookup (h : list (string * string)) (k : string)
  : option string :=
  match h with
  | [] => None
  | (k', v) :: h' => if String.eqb k' k then Some v else header_lookup h' k
  end.

(** [headers.get(k, default)] *)
Definition headers_get (h : list (string * string)) (k default : string)
  : string :=
  match header_lookup h k with
  | Some v => v
  | None => default
  end.

Definition is_redirect_of (search_url : string) (r : Response) : bool :=
  String.eqb (resp_url r) search_url
  && (300 <=? resp_status r) && (resp_status r <? 400).

(** The closure variables [redirected] and [final_url], and what one call
    of the response handler does to them.  The handler is taken to have
    run for all responses of the navigation by the time the page has
    loaded. *)
Definition handle_response (search_url : string) (st : bool * string)
    (response : Response) : bool * string :=
  if is_redirect_of search_url response then
    (true, headers_get (resp_headers response) "location" search_url)
  else st.

(** The handler runs once for every response seen while the page loads. *)
Definition observe_redirect (search_url : string) (responses : list Response)
  : bool * string :=
  fold_left (handle_response search_url) responses (false, search_url).

Definition search_and_scrape (keyword : string) (existing : list string)
  : M (list ProductDetails) :=
  let search_url := search_url_of keyword in
  with_playwright
    (launch_context ;;;
     new_page ;;;
     responses <- page_goto search_url ;;
     let '(redirected, final_url) := observe_redirect search_url responses in
     wait_for_load_state "load" ;;;
     result <-
       (if negb redirected then get_names_and_fetch search_url existing
        else
          details <- fetch_product_details final_url None ;;
          ret (match details with Some d => [d] | None => [] end)) ;;
     browser_close ;;;
     ret result).

(** ** The endpoints *)

Definition to_http_500 {A} (m : M A) : M A :=
  try_except m (fun e => lift (Raised (HTTPException 500 (exn_str e)))).

Definition scrape_endpoint (url : string) (existing : list string)
  : M (list ProductDetails) :=
  to_http_500 (get_names_and_fetch url existing).

Definition search_and_scrape_endpoint (request : SearchRequest)
  : M (list ProductDetails) :=
  to_http_500
    (search_and_scrape (search_keyword request)
       (existing_product_names request)).

End Service.

Arguments page_goto w url tr /.
Arguments mouse_wheel w dx dy tr /.
Arguments wait_for_load_state w state tr /.
Arguments query_data w query tr /.

(** ** A small site to run the service on *)

Module Site.

(** The URL of the page opened last. *)
Fixpoint current_url (tr : Trace) (acc : string) : string :=
  match tr with
  | [] => acc
  | EGoto u :: tr' => current_url tr' u
  | _ :: tr' => current_url tr' acc
  end.

(** A world whose answers depend on the current page only: [nav] answers
    a navigation, [answers] a query on the page at a URL. *)
Definition static (nav : string -> Res (list Response))
    (answers : string -> string -> Res PyVal) : World :=
  {| goto_answer := fun _ url => nav url;
     wheel_answer := fun _ _ _ => Returned tt;
     wait_answer := fun _ _ => Returned tt;
     query_answer := fun tr q => answers (current_url tr "") q |}.

Definition product (n l i : string) : PyVal :=
  PDict [("name", PStr n); ("link", PStr l); ("img", PStr i)].

Definition listing_url : string := "https://demandvape.com/list".

Definition three_products : PyVal :=
  PDict [("products",
          PList [product "A" "https://demandvape.com/a" "a.png";
                 product "B" "https://demandvape.com/b" "b.png";
                 product "C" "https://demandvape.com/c" "c.png"])].

Definition battery (b : string) : PyVal := PDict [("Battery", PStr b)].

Definition info (n l i : string) : PyVal :=
  PDict [("product_name", PStr n); ("product_link", PStr l);
         ("product_img", PStr i)].

Definition timeout_error : Exn := ExternalError "Timeout 30000ms exceeded".

(** A listing of A, B and C, also found by searching for [pod]; the detail
    query of C fails. *)
Definition shop_answers (url query : string) : Res PyVal :=
  if String.eqb query PRODUCT_LIST_QUERY then
    if String.eqb url listing_url || String.eqb url (search_url_of "pod")
    then Returned three_products
    else Raised timeout_error
  else if String.eqb query PRODUCT_DETAIL_QUERY then
    if String.eqb url "https://demandvape.com/a" then Returned (battery "650mAh")
    else if String.eqb url "https://demandvape.com/b" then Returned (battery "800mAh")
    else Raised timeout_error
  else
    if String.eqb url "https://demandvape.com/a"
    then Returned (info "A" "https://demandvape.com/a" "a.png")
    else Raised timeout_error.

Definition shop : World := static (fun _ => Returned []) shop_answers.

Definition redirect_to (target : string) (keyword : string) : Response :=
  {| resp_url := search_url_of keyword;
     resp_status := 302;
     resp_headers := [("location", target)] |}.

(** Searching for [A] redirects to the page of product A. *)
Definition redirecting_shop : World :=
  static (fun url =>
            if String.eqb url (search_url_of "A")
            then Returned [redirect_to "https://demandvape.com/a" "A"]
            else Returned [])
         shop_answers.

(** The site cannot be reached. *)
(** Searching for [A] answers 301 without saying where to go. *)
Definition bare_redirect : Response :=
  {| resp_url := search_url_of "A";
     resp_status := 301;
     resp_headers := [("content-length", "0")] |}.

Definition lost_shop : World :=
  static (fun url =>
            if String.eqb url (search_url_of "A")
            then Returned [bare_redirect]
            else Returned [])
         shop_answers.

Definition details_A : ProductDetails :=
  {| base := mkProductBase "A" "https://demandvape.com/a" "a.png";
     Battery := Some "650mAh"; Max_Puff := None; Display := None;
     Nicotine := None; E_liquid_Capacity := None |}.

Definition details_B : ProductDetails :=
  {| base := mkProductBase "B" "https://demandvape.com/b" "b.png";
     Battery := Some "800mAh"; Max_Puff := None; Display := None;
     Nicotine := None; E_liquid_Capacity := None |}.

Definition unreachable : World :=
  static (fun _ => Raised (ExternalError "net::ERR_CONNECTION_REFUSED"))
         shop_answers.

(** A listing of six entries, the sixth of which is not a product. *)
Definition six_entries : list PyVal :=
  [product "A" "https://demandvape.com/a" "a.png";
   product "B" "https://demandvape.com/b" "b.png";
   product "C" "https://demandvape.com/c" "c.png";
   product "D" "https://demandvape.com/d" "d.png";
   product "E" "https://demandvape.com/e" "e.png";
   PStr "advertisement"].

Definition listing_only (entries : PyVal) : World :=
  static (fun _ => Returned [])
         (fun _ query =>
            if String.eqb query PRODUCT_LIST_QUERY then Returned entries
            else Raised timeout_error).

Definition crowded_shop : World :=
  listing_only (PDict [("products", PList six_entries)]).

(** A listing whose second entry is keyed by the names of the query. *)
Definition sloppy_entries : list PyVal :=
  [product "A" "https://demandvape.com/a" "a.png";
   PDict [("product_name", PStr "B")]].

Definition sloppy_shop : World :=
  listing_only (PDict [("products", PList sloppy_entries)]).

(** The listing query answers, without a list of products. *)
Definition empty_shop : World :=
  listing_only (PDict [("total", PStr "0")]).

(** The attribute query repeats the name of the product. *)
Definition echo_shop : World :=
  static (fun _ => Returned [])
         (fun _ _ =>
            Returned (PDict [("name", PStr "A"); ("Battery", PStr "650mAh")])).

(** The shop, with the page of product A unreachable. *)
Definition broken_link_shop : World :=
  static (fun url =>
            if String.eqb url "https://demandvape.com/a"
            then Raised (ExternalError "net::ERR_ABORTED")
            else Returned [])
         shop_answers.

(** Searching for [A] is redirected twice, last to the page of product A;
    a redirect of another URL passes by. *)
Definition twice_redirecting_shop : World :=
  static (fun url =>
            if String.eqb url (search_url_of "A")
            then Returned [redirect_to "https://demandvape.com/b" "A";
                           redirect_to "https://demandvape.com/a" "A";
                           redirect_to "https://demandvape.com/c" "other"]
            else Returned [])
         shop_answers.

(** The search page never finishes loading. *)
Definition stalled_shop : World :=
  {| goto_answer := fun _ _ => Returned [];
     wheel_answer := fun _ _ _ => Returned tt;
     wait_answer := fun _ _ => Raised timeout_error;
     query_answer := fun _ _ => Raised timeout_error |}.

End Site.

(** * Vocabulary of the properties *)

Arguments PRODUCT_DETAIL_QUERY : simpl never.
Arguments PRODUCT_INFO_QUERY : simpl never.
Arguments PRODUCT_LIST_QUERY : simpl never.
Arguments search_url_of : simpl never.
Arguments fetch_product_details : simpl never.
Arguments get_product_names : simpl never.
Arguments fetch_product : simpl never.
Arguments get_names_and_fetch : simpl never.
Arguments search_and_scrape : simpl never.

(** The history at which a page opened after [tr] is navigated, scrolled
    and queried. *)
Definition at_goto (tr : Trace) : Trace := tr ++ [ENewPage].
Definition at_wheel (tr : Trace) (url : string) : Trace :=
  tr ++ [ENewPage; EGoto url].
Definition at_query (tr : Trace) (url : string) (dy : Z) : Trace :=
  tr ++ [ENewPage; EGoto url; EWheel 0 dy].

(** The vertical distances of the scrolls in a trace. *)
Fixpoint scrolled (tr : Trace) : list Z :=
  match tr with
  | [] => []
  | EWheel _ dy :: tr' => dy :: scrolled tr'
  | _ :: tr' => scrolled tr'
  end.

(** The events a computation adds to the trace it starts from. *)
Definition events_of {A} (m : M A) (tr : Trace) : Trace :=
  skipn (List.length tr) (snd (m tr)).

Definition details_error (product : option ProductBase) (e : Exn) : Event :=
  ELogError ("Error fetching details for product "
             ++ product_name_or_unknown product ++ ": " ++ exn_str e)%string.

(** The products the listing query found, and whether one of them is a
    product with a name the caller does not know yet. *)
Definition found_products (response : PyVal) : list PyVal :=
  match py_get response "products" (PList []) with
  | Returned (PList l) => l
  | _ => []
  end.

Definition found_is_new (existing : list string) (v : PyVal) : bool :=
  match ProductBase_kwargs v with
  | Returned p => is_new existing p
  | Raised _ => false
  end.

(** The listed products whose detail fetch gave a result, in listing
    order. *)
Fixpoint fetched_in_order (ps : list ProductBase)
    (rs : list (option ProductDetails)) : list ProductBase :=
  match ps, rs with
  | p :: ps', Some _ :: rs' => p :: fetched_in_order ps' rs'
  | _ :: ps', None :: rs' => fetched_in_order ps' rs'
  | _, _ => []
  end.

(** The history at which [get_names_and_fetch], called after [tr], opens
    its listing page. *)
Definition in_context (tr : Trace) : Trace :=
  tr ++ [EPlaywrightStart; ELaunch true 30000; ENewContext].

(** Where the search page is navigated, and where the branch is taken. *)
Definition at_search (tr : Trace) : Trace := in_context tr ++ [ENewPage].
Definition at_wait (tr : Trace) (url : string) : Trace :=
  in_context tr ++ [ENewPage; EGoto url].
Definition at_branch (tr : Trace) (url : string) : Trace :=
  in_context tr ++ [ENewPage; EGoto url; EWaitForLoadState "load"].

(** A fetch result, if there is one, carries the identity of the product
    it was fetched for. *)
Definition keeps_identity (p : ProductBase) (r : option ProductDetails)
  : Prop :=
  forall d, r = Some d -> base d = p.

(** The result of the redirect branch: what detail extraction on the final
    URL gave, as a list. *)
Definition redirect_result (r : Res (option ProductDetails) * Trace)
  : Res (list ProductDetails) * Trace :=
  match r with
  | (Raised e, t) => (Raised e, t ++ [EPlaywrightStop])
  | (Returned details, t) =>
      (Returned (match details with Some d => [d] | None => [] end),
       t ++ [EBrowserClose; EPlaywrightStop])
  end.

(** The URLs navigated to, the queries issued and the number of explicit
    browser closes in a trace. *)
Fixpoint navigated (tr : Trace) : list string :=
  match tr with
  | [] => []
  | EGoto url :: tr' => url :: navigated tr'
  | _ :: tr' => navigated tr'
  end.

Fixpoint queried (tr : Trace) : list string :=
  match tr with
  | [] => []
  | EQueryData q :: tr' => q :: queried tr'
  | _ :: tr' => queried tr'
  end.

Fixpoint closes (tr : Trace) : nat :=
  match tr with
  | [] => 0%nat
  | EBrowserClose :: tr' => S (closes tr')
  | _ :: tr' => closes tr'
  end.

(** What a page does once it is navigated: scroll, query, log. *)
Definition page_work (e : Event) : bool :=
  match e with
  | EWheel _ _ | EQueryData _ | ELogError _ => true
  | _ => false
  end.

Definition processing_error (e : Exn) : Event :=
  ELogError ("Error processing product: " ++ exn_str e)%string.

Definition products_error (e : Exn) : Event :=
  ELogError ("Error fetching products: " ++ exn_str e)%string.

(** A left inverse of [quote]: the value of a hexadecimal digit, and the
    decoding of percent escapes. *)
Definition hex_value (c : ascii) : Z :=
  let n := Z.of_nat (nat_of_ascii c) in
  if n <? 58 then n - 48 else n - 55.

Fixpoint unquote (s : string) : string :=
  match s with
  | EmptyString => EmptyString
  | String c s' =>
      if Ascii.eqb c "%" then
        match s' with
        | String h1 (String h2 s'') =>
            String (ascii_of_nat (Z.to_nat (16 * hex_value h1 + hex_value h2)))
                   (unquote s'')
        | _ => String c (unquote s')
        end
      else String c (unquote s')
  end.

(** A detail response that cannot be merged with the identity of a product:
    it is not a dict, or it has a key of the identity itself. *)
Definition clashes_with_identity (detail_response : PyVal) : bool :=
  match detail_response with
  | PDict d => has_key d "name" || has_key d "link" || has_key d "img"
  | _ => true
  end.

Ltac run :=
  unfold new_page, launch_context, browser_close, logging_error;
  unfold bind, try_except, emit, lift, ret; cbn beta iota.

Ltac tidy := repeat rewrite <- app_assoc in *; cbn [app] in *.

Ltac no_more_scroll :=
  eexists; split; [tidy; cbn [snd app]; reflexivity | reflexivity].

Ltac page_works :=
  eexists; split; [tidy; cbn [snd app]; reflexivity | reflexivity].

Ltac leaf :=
  cbn [snd]; tidy; rewrite skipn_app, skipn_all, Nat.sub_diag;
  reflexivity.

(** * Properties *)

(** ** Facts about the pipeline *)

Section Facts.

Variable w : World.

Lemma ProductDetails_merge_base pb resp d :
  ProductDetails_merge pb resp = Returned d -> base d = pb.
Proof.
  unfold ProductDetails_merge. destruct resp as [| |l|dict]; try discriminate.
  destruct (has_key dict "name" || has_key dict "link" || has_key dict "img");
    try discriminate.
  repeat match goal with
         | |- res_bind ?r _ = _ -> _ => destruct r; cbn [res_bind]; try discriminate
         end.
  intros H. injection H as <-. reflexivity.
Qed.

Lemma ProductBase_eta (p : ProductBase) :
  mkProductBase (name p) (link p) (img p) = p.
Proof. destruct p; reflexivity. Qed.

(** Detail extraction for a known product keeps its identity. *)
Lemma fetch_product_details_base url p tr d tr' :
  fetch_product_details w url (Some p) tr = (Returned (Some d), tr') ->
  base d = p.
Proof.
  unfold fetch_product_details. run. cbn.
  destruct (goto_answer w _ _); try discriminate.
  destruct (wheel_answer w _ _ _); try discriminate.
  destruct (query_answer w _ _); try discriminate.
  rewrite ProductBase_eta.
  destruct (ProductDetails_merge p a1) eqn:E; try discriminate.
  intros H. injection H as <- _. now apply ProductDetails_merge_base in E.
Qed.

(** A fan-out task never raises, whatever the site does. *)
Lemma fetch_product_returns p tr :
  exists r tr',
    fetch_product w p tr = (Returned r, tr')
    /\ (forall d, r = Some d -> base d = p).
Proof.
  unfold fetch_product, try_except.
  destruct (fetch_product_details w (link p) (Some p) tr) as [[e|r] tr'] eqn:E.
  - run. do 2 eexists. split; [reflexivity | discriminate].
  - do 2 eexists. split; [reflexivity |].
    intros d ->. eapply fetch_product_details_base, E.
Qed.

Lemma gather_fetch_product ps tr :
  exists rs tr',
    gather (map (fetch_product w) ps) tr = (Returned rs, tr')
    /\ Forall2 keeps_identity ps rs.
Proof.
  revert tr. induction ps as [|p ps IH]; intros tr; cbn [map gather].
  - exists [], tr. split; [reflexivity | constructor].
  - destruct (fetch_product_returns p tr) as (r & t1 & E1 & Hb).
    destruct (IH t1) as (rs & t2 & E2 & Hrs).
    exists (r :: rs), t2. unfold bind. rewrite E1, E2.
    split; [reflexivity | now constructor].
Qed.

Lemma gather_app {A} (ts1 ts2 : list (M A)) tr r1 t1 :
  gather ts1 tr = (Returned r1, t1) ->
  gather (ts1 ++ ts2) tr =
  match gather ts2 t1 with
  | (Returned r2, t2) => (Returned (r1 ++ r2), t2)
  | (Raised e, t2) => (Raised e, t2)
  end.
Proof.
  revert tr r1. induction ts1 as [|t ts1 IH]; intros tr r1; cbn [app gather].
  - unfold ret. intros H. injection H as <- <-.
    now destruct (gather ts2 tr) as [[e|r2] t2].
  - unfold bind at 1 3. destruct (t tr) as [[e|r] t'] eqn:E; try discriminate.
    unfold bind at 1. destruct (gather ts1 t') as [[e|rs] t''] eqn:E';
      try discriminate.
    unfold ret. intros H. injection H as <- <-.
    unfold bind. rewrite (IH _ _ E').
    now destruct (gather ts2 t'') as [[e|r2] t2].
Qed.

Lemma not_none_app {A} (l1 l2 : list (option A)) :
  not_none (l1 ++ l2) = not_none l1 ++ not_none l2.
Proof.
  induction l1 as [|[a|] l1 IH]; cbn; now rewrite ?IH.
Qed.

Lemma not_none_length {A} (l : list (option A)) :
  (List.length (not_none l) <= List.length l)%nat.
Proof.
  induction l as [|[a|] l IH]; cbn; lia.
Qed.

(** [get_names_and_fetch] by the outcome of its two stages. *)
Lemma get_names_and_fetch_stages url existing tr :
  get_names_and_fetch w url existing tr =
  match get_product_names w url (in_context tr) with
  | (Raised e, t1) => (Raised e, t1 ++ [EPlaywrightStop])
  | (Returned None, t1) =>
      (Raised (TypeError "'NoneType' object is not iterable"),
       t1 ++ [EPlaywrightStop])
  | (Returned (Some products), t1) =>
      match gather (map (fetch_product w) (filter (is_new existing) products))
                   t1 with
      | (Raised e, t2) => (Raised e, t2 ++ [EPlaywrightStop])
      | (Returned fetched, t2) =>
          (Returned (not_none fetched),
           t2 ++ [EBrowserClose; EPlaywrightStop])
      end
  end.
Proof.
  unfold get_names_and_fetch, with_playwright, in_context. run. tidy.
  destruct (get_product_names w url _) as [[e|[products|]] t1];
    try reflexivity.
  destruct (gather _ t1) as [[e|fetched] t2]; tidy; reflexivity.
Qed.

(** A listing that was returned was read off the answer of the listing
    query. *)
Lemma get_product_names_some url tr products tr' :
  get_product_names w url tr = (Returned (Some products), tr') ->
  exists response found first5,
    query_answer w (at_query tr url 4000) PRODUCT_LIST_QUERY
    = Returned response
    /\ py_get response "products" (PList []) = Returned found
    /\ slice5_iter found = Returned first5
    /\ res_map ProductBase_kwargs first5 = Returned products.
Proof.
  unfold get_product_names, at_query. run. cbn. tidy.
  destruct (goto_answer w _ _); try discriminate.
  destruct (wheel_answer w _ _ _); try discriminate.
  destruct (query_answer w _ _) as [e|response]; try discriminate.
  destruct (py_get response _ _) as [e|found] eqn:Eg; try discriminate.
  destruct (slice5_iter found) as [e|first5] eqn:Es; try discriminate.
  destruct (res_map _ first5) as [e|l] eqn:Em; try discriminate.
  intros H. injection H as <- _. now exists response, found, first5.
Qed.

(** [search_and_scrape] by the outcome of its stages. *)
Lemma search_and_scrape_stages keyword existing tr :
  search_and_scrape w keyword existing tr =
  let url := search_url_of keyword in
  match goto_answer w (at_search tr) url with
  | Raised e => (Raised e, at_wait tr url ++ [EPlaywrightStop])
  | Returned responses =>
      match wait_answer w (at_wait tr url) "load" with
      | Raised e => (Raised e, at_branch tr url ++ [EPlaywrightStop])
      | Returned _ =>
          if negb (fst (observe_redirect url responses)) then
            match get_names_and_fetch w url existing (at_branch tr url) with
            | (Raised e, t) => (Raised e, t ++ [EPlaywrightStop])
            | (Returned l, t) =>
                (Returned l, t ++ [EBrowserClose; EPlaywrightStop])
            end
          else
            match fetch_product_details w
                    (snd (observe_redirect url responses)) None
                    (at_branch tr url) with
            | (Raised e, t) => (Raised e, t ++ [EPlaywrightStop])
            | (Returned details, t) =>
                (Returned (match details with Some d => [d] | None => [] end),
                 t ++ [EBrowserClose; EPlaywrightStop])
            end
      end
  end.
Proof.
  unfold search_and_scrape, with_playwright, at_search, at_wait, at_branch,
    in_context.
  run. cbn. tidy.
  destruct (goto_answer w _ _) as [e|responses]; [tidy; reflexivity|].
  destruct (observe_redirect _ responses) as [redirected final_url].
  cbn [fst snd]. tidy.
  destruct (wait_answer w _ _) as [e|[]]; [tidy; reflexivity|].
  destruct redirected; cbn [negb].
  - destruct (fetch_product_details w _ _ _) as [[e|details] t]; tidy;
      reflexivity.
  - destruct (get_names_and_fetch w _ _ _) as [[e|l] t]; tidy; reflexivity.
Qed.

Lemma to_http_500_returned {A} (m : M A) tr (a : A) :
  fst (to_http_500 m tr) = Returned a -> fst (m tr) = Returned a.
Proof.
  unfold to_http_500, try_except, lift.
  now destruct (m tr) as [[e|a'] tr'].
Qed.

(** What a returned list of [get_names_and_fetch] is made of. *)
Lemma get_names_and_fetch_returned url existing tr l :
  fst (get_names_and_fetch w url existing tr) = Returned l ->
  exists products t1 fetched t2,
    get_product_names w url (in_context tr) = (Returned (Some products), t1)
    /\ gather (map (fetch_product w) (filter (is_new existing) products)) t1
       = (Returned fetched, t2)
    /\ Forall2 keeps_identity (filter (is_new existing) products) fetched
    /\ l = not_none fetched.
Proof.
  rewrite get_names_and_fetch_stages.
  destruct (get_product_names w url _) as [[e|[products|]] t1];
    try discriminate.
  destruct (gather_fetch_product (filter (is_new existing) products) t1)
    as (fetched & t2 & E & HF).
  rewrite E. cbn. intros H. injection H as <-.
  now exists products, t1, fetched, t2.
Qed.

Lemma not_none_identity ps rs d :
  Forall2 keeps_identity ps rs -> In d (not_none rs) -> In (base d) ps.
Proof.
  induction 1 as [|p r ps rs Hp _ IH]; cbn; [easy|].
  destruct r as [d'|]; cbn.
  - intros [<-|Hin]; [left; symmetry; now apply Hp | right; auto].
  - right; auto.
Qed.

Lemma name_in_In n names : name_in n names = true <-> In n names.
Proof.
  induction names as [|m names IH]; cbn; [easy|].
  rewrite orb_true_iff, String.eqb_eq, IH. intuition congruence.
Qed.

(** No returned product of [get_names_and_fetch] bears a known name. *)
Lemma get_names_and_fetch_new url existing tr l d :
  fst (get_names_and_fetch w url existing tr) = Returned l ->
  In d l -> ~ In (name (base d)) existing.
Proof.
  intros H Hd.
  apply get_names_and_fetch_returned in H
    as (products & t1 & fetched & t2 & _ & _ & HF & ->).
  apply (not_none_identity _ _ _ HF) in Hd.
  apply filter_In in Hd as [_ Hnew]. unfold is_new in Hnew.
  rewrite <- name_in_In. now destruct (name_in _ existing).
Qed.

(** A fan-out task whose detail query raises logs the failure and yields
    no result. *)
Lemma fetch_product_query_failed p tr responses e :
  goto_answer w (at_goto tr) (link p) = Returned responses ->
  wheel_answer w (at_wheel tr (link p)) 0 3000 = Returned tt ->
  query_answer w (at_query tr (link p) 3000) PRODUCT_DETAIL_QUERY
  = Raised e ->
  fetch_product w p tr =
  (Returned None,
   at_query tr (link p) 3000
   ++ [EQueryData PRODUCT_DETAIL_QUERY; details_error (Some p) e]).
Proof.
  unfold at_goto, at_wheel, at_query. intros Hg Hw Hq.
  unfold fetch_product, fetch_product_details. run. cbn. tidy.
  rewrite Hg, Hw. tidy. rewrite Hq. tidy. reflexivity.
Qed.

End Facts.

(** ** What the response handler has seen *)

Lemma observe_redirect_snoc url responses r :
  observe_redirect url (responses ++ [r])
  = handle_response url (observe_redirect url responses) r.
Proof. unfold observe_redirect. now rewrite fold_left_app. Qed.

(** The flag is raised exactly when some response was a redirect of the
    search URL. *)
Lemma observe_redirect_flag url responses :
  fst (observe_redirect url responses)
  = existsb (is_redirect_of url) responses.
Proof.
  induction responses as [|r responses IH] using rev_ind; [reflexivity|].
  rewrite observe_redirect_snoc, existsb_app. cbn [existsb].
  unfold handle_response. rewrite orb_false_r.
  destruct (is_redirect_of url r); cbn [fst].
  - now rewrite orb_true_r.
  - now rewrite orb_false_r.
Qed.

(** The handler keeps what the last redirect of the search URL said. *)
Lemma observe_redirect_last url before r after :
  is_redirect_of url r = true ->
  existsb (is_redirect_of url) after = false ->
  observe_redirect url (before ++ r :: after)
  = (true, headers_get (resp_headers r) "location" url).
Proof.
  intros Hr. induction after as [|r' after IH] using rev_ind; intros Hafter.
  - rewrite observe_redirect_snoc. unfold handle_response. now rewrite Hr.
  - rewrite existsb_app in Hafter. cbn [existsb] in Hafter.
    apply orb_false_elim in Hafter as [Hafter Hr'].
    rewrite orb_false_r in Hr'.
    change (before ++ r :: after ++ [r'])
      with (before ++ (r :: after) ++ [r']).
    rewrite app_assoc, observe_redirect_snoc, (IH Hafter).
    unfold handle_response. now rewrite Hr'.
Qed.


(** Detail extraction scrolls once, right after navigation. *)
Lemma fetch_product_details_events w url product tr responses :
  goto_answer w (tr ++ [ENewPage]) url = Returned responses ->
  exists evs,
    snd (fetch_product_details w url product tr)
    = tr ++ [ENewPage; EGoto url; EWheel 0 3000] ++ evs
    /\ scrolled evs = [].
Proof.
  intros Hg. unfold fetch_product_details. run. cbn. rewrite Hg. tidy.
  destruct (wheel_answer w _ _ _) as [e|[]]; [no_more_scroll|]. tidy.
  destruct (query_answer w _ PRODUCT_DETAIL_QUERY) as [e|response];
    [no_more_scroll|].
  destruct product as [p|].
  { destruct (ProductDetails_merge _ response); no_more_scroll. }
  destruct (query_answer w _ PRODUCT_INFO_QUERY) as [e|product_info];
    [no_more_scroll|].
  destruct (py_get product_info "product_name" PNone); [no_more_scroll|].
  destruct (py_get product_info "product_link" PNone); [no_more_scroll|].
  destruct (py_get product_info "product_img" PNone); [no_more_scroll|].
  destruct (ProductBase_init _ _ _); [no_more_scroll|].
  destruct (ProductDetails_merge _ response); no_more_scroll.
Qed.

(** Listing extraction scrolls once, right after navigation. *)
Lemma get_product_names_events w url tr responses :
  goto_answer w (tr ++ [ENewPage]) url = Returned responses ->
  exists evs,
    snd (get_product_names w url tr)
    = tr ++ [ENewPage; EGoto url; EWheel 0 4000] ++ evs
    /\ scrolled evs = [].
Proof.
  intros Hg. unfold get_product_names. run. cbn. rewrite Hg. tidy.
  destruct (wheel_answer w _ _ _) as [e|[]]; [no_more_scroll|]. tidy.
  destruct (query_answer w _ PRODUCT_LIST_QUERY) as [e|response];
    [no_more_scroll|].
  destruct (py_get response "products" (PList [])) as [e|found];
    [no_more_scroll|].
  destruct (slice5_iter found) as [e|first5]; [no_more_scroll|].
  destruct (res_map ProductBase_kwargs first5); no_more_scroll.
Qed.

Lemma search_and_scrape_redirected w keyword existing tr responses :
  goto_answer w (at_search tr) (search_url_of keyword) = Returned responses ->
  wait_answer w (at_wait tr (search_url_of keyword)) "load" = Returned tt ->
  fst (observe_redirect (search_url_of keyword) responses) = true ->
  search_and_scrape w keyword existing tr
  = redirect_result
      (fetch_product_details w
         (snd (observe_redirect (search_url_of keyword) responses)) None
         (at_branch tr (search_url_of keyword))).
Proof.
  intros Hg Hw Hr. rewrite search_and_scrape_stages. cbv zeta.
  rewrite Hg, Hw, Hr. reflexivity.
Qed.

Lemma scrolled_app tr1 tr2 :
  scrolled (tr1 ++ tr2) = scrolled tr1 ++ scrolled tr2.
Proof.
  induction tr1 as [|[] tr1 IH]; cbn; now rewrite ?IH.
Qed.

Lemma events_of_app {A} (m : M A) tr evs :
  snd (m tr) = tr ++ evs -> events_of m tr = evs.
Proof.
  unfold events_of. intros ->.
  now rewrite skipn_app, skipn_all, Nat.sub_diag.
Qed.

(** ** Listing failure *)

(** C1, on the code: when the listing query raises, [get_product_names]
    catches the exception and returns [None], but [get_names_and_fetch]
    iterates over that [None]: it raises a [TypeError], which reaches the
    endpoint and is answered with an HTTP 500.  The request is aborted, it
    does not degrade to an empty list. *)
Theorem failed_listing_query_aborts_request w url existing tr responses e :
  goto_answer w (at_goto (in_context tr)) url = Returned responses ->
  wheel_answer w (at_wheel (in_context tr) url) 0 4000 = Returned tt ->
  query_answer w (at_query (in_context tr) url 4000) PRODUCT_LIST_QUERY
  = Raised e ->
  fst (get_product_names w url (in_context tr)) = Returned None
  /\ fst (get_names_and_fetch w url existing tr)
     = Raised (TypeError "'NoneType' object is not iterable")
  /\ fst (scrape_endpoint w url existing tr)
     = Raised (HTTPException 500 "'NoneType' object is not iterable").
Proof.
  unfold at_goto, at_wheel, at_query. intros Hg Hw Hq.
  assert (Hn : fst (get_product_names w url (in_context tr)) = Returned None).
  { unfold get_product_names. run. cbn. tidy.
    rewrite Hg, Hw. cbn. tidy. now rewrite Hq. }
  split; [exact Hn|].
  assert (Hf : fst (get_names_and_fetch w url existing tr)
               = Raised (TypeError "'NoneType' object is not iterable")).
  { rewrite get_names_and_fetch_stages.
    destruct (get_product_names w url _) as [[e'|[products|]] t1];
      cbn in Hn; try discriminate. reflexivity. }
  split; [exact Hf|].
  unfold scrape_endpoint, to_http_500, try_except, lift.
  destruct (get_names_and_fetch w url existing tr) as [[e'|l] t];
    cbn in Hf; try discriminate.
  injection Hf as ->. reflexivity.
Qed.

Lemma failed_listing_query_aborts_request_witness :
  fst (scrape_endpoint Site.shop "https://demandvape.com/gone" ["B"] [])
  = Raised (HTTPException 500 "'NoneType' object is not iterable").
Proof.
  apply (failed_listing_query_aborts_request Site.shop
           "https://demandvape.com/gone" ["B"] [] [] Site.timeout_error);
    reflexivity.
Defined.

(** ** De-duplication *)

(** C2 as stated fails: in the redirect branch of /search-and-scrape the
    list of known names is never consulted, so a search for a known
    product that redirects to its page returns that product. *)
Lemma known_name_returned_after_redirect :
  ~ ((forall w url existing tr l,
        fst (scrape_endpoint w url existing tr) = Returned l ->
        forall n d, In n existing -> In d l -> name (base d) <> n)
     /\ (forall w request tr l,
           fst (search_and_scrape_endpoint w request tr) = Returned l ->
           forall n d, In n (existing_product_names request) -> In d l ->
                       name (base d) <> n)).
Proof.
  intros [_ H].
  apply (H Site.redirecting_shop (mkSearchRequest "A" ["A"]) []
           [Site.details_A] eq_refl "A" Site.details_A);
    [now left | now left | reflexivity].
Qed.

(** C2, amended: the products returned by /scrape, and by
    /search-and-scrape when the search did not redirect, never bear a name
    of the caller's list of known names. *)
Theorem known_names_not_returned :
  (forall w url existing tr l,
     fst (scrape_endpoint w url existing tr) = Returned l ->
     forall n d, In n existing -> In d l -> name (base d) <> n)
  /\ (forall w request tr responses l,
        goto_answer w (at_search tr) (search_url_of (search_keyword request))
        = Returned responses ->
        fst (observe_redirect (search_url_of (search_keyword request))
               responses) = false ->
        fst (search_and_scrape_endpoint w request tr) = Returned l ->
        forall n d, In n (existing_product_names request) -> In d l ->
                    name (base d) <> n).
Proof.
  split.
  - intros w url existing tr l H n d Hn Hd Heq. subst n.
    apply to_http_500_returned in H.
    now apply (get_names_and_fetch_new w url existing tr l d H Hd).
  - intros w [keyword existing] tr responses l Hg Hr H n d Hn Hd Heq.
    subst n. unfold search_and_scrape_endpoint in H.
    cbn [search_keyword existing_product_names] in *.
    apply to_http_500_returned in H.
    rewrite search_and_scrape_stages in H. cbv zeta in H.
    rewrite Hg, Hr in H. cbn [negb] in H.
    destruct (wait_answer w _ _) as [e|[]]; try discriminate.
    destruct (get_names_and_fetch w _ existing _) as [[e|l'] t] eqn:E;
      try discriminate.
    cbn in H. injection H as ->.
    eapply get_names_and_fetch_new; [now rewrite E | exact Hd | exact Hn].
Qed.

Lemma known_names_not_returned_witness :
  (fst (scrape_endpoint Site.shop Site.listing_url ["B"] [])
   = Returned [Site.details_A]
   /\ forall d, In d [Site.details_A] -> name (base d) <> "B")
  /\ (fst (search_and_scrape_endpoint Site.shop
             (mkSearchRequest "pod" ["B"]) [])
      = Returned [Site.details_A]
      /\ forall d, In d [Site.details_A] -> name (base d) <> "B").
Proof.
  split; (split; [reflexivity|]).
  - intros d.
    apply (proj1 known_names_not_returned Site.shop Site.listing_url ["B"] []
             [Site.details_A] eq_refl "B" d).
    now left.
  - intros d.
    apply (proj2 known_names_not_returned Site.shop
             (mkSearchRequest "pod" ["B"]) [] [] [Site.details_A]
             eq_refl eq_refl eq_refl "B" d).
    now left.
Defined.

(** ** Size of the result *)

Lemma res_map_filter {A B} (f : A -> Res B) (g : B -> bool) l l' :
  res_map f l = Returned l' ->
  List.length l' = List.length l
  /\ List.length (filter g l')
     = List.length (filter (fun v => match f v with
                                     | Returned p => g p
                                     | Raised _ => false
                                     end) l).
Proof.
  revert l'. induction l as [|x l IH]; intros l'; cbn [res_map].
  - intros H. injection H as <-. now split.
  - destruct (f x) as [e|y] eqn:E; cbn [res_bind]; try discriminate.
    destruct (res_map f l) as [e|ys]; cbn [res_bind]; try discriminate.
    intros H. injection H as <-. destruct (IH ys eq_refl) as [IH1 IH2].
    cbn [filter]. rewrite E. split; [cbn; lia|].
    destruct (g y); cbn; lia.
Qed.

Lemma filter_firstn_length {A} (g : A -> bool) n l :
  (List.length (filter g (firstn n l)) <= List.length (filter g l))%nat.
Proof.
  revert n. induction l as [|x l IH]; intros [|n]; cbn; try lia.
  specialize (IH n). destruct (g x); cbn; lia.
Qed.

Lemma res_map_chars s l :
  res_map ProductBase_kwargs (firstn 5 (chars s)) = Returned l -> l = [].
Proof.
  destruct s as [|c s]; cbn; [congruence | discriminate].
Qed.

Lemma slice5_iter_returned v first5 :
  slice5_iter v = Returned first5 ->
  (exists s, v = PStr s /\ first5 = firstn 5 (chars s))
  \/ (exists l, v = PList l /\ first5 = firstn 5 l).
Proof.
  destruct v as [|s|l|d]; try discriminate; intros H; injection H as <-;
    [left | right]; eexists; split; reflexivity.
Qed.

(** C3: when the listing query answers, a list returned by
    [get_names_and_fetch] has at most five elements, and at most as many as
    the listing query found products with a name that is not known yet. *)
Theorem result_size_bounded w url existing tr response l :
  query_answer w (at_query (in_context tr) url 4000) PRODUCT_LIST_QUERY
  = Returned response ->
  fst (get_names_and_fetch w url existing tr) = Returned l ->
  (List.length l <= 5)%nat
  /\ (List.length l
      <= List.length (filter (found_is_new existing)
                        (found_products response)))%nat.
Proof.
  intros Hq H.
  apply get_names_and_fetch_returned in H
    as (products & t1 & fetched & t2 & Hl & _ & HF & ->).
  apply get_product_names_some in Hl
    as (response' & found & first5 & Hq' & Hg & Hs & Hm).
  rewrite Hq in Hq'. injection Hq' as <-.
  pose proof (not_none_length fetched) as Hn.
  apply Forall2_length in HF. rewrite <- HF in Hn.
  unfold found_products. rewrite Hg.
  apply slice5_iter_returned in Hs as [(s & -> & ->)|(found' & -> & ->)].
  - apply res_map_chars in Hm. subst products. cbn in *. lia.
  - destruct (res_map_filter _ (is_new existing) _ _ Hm) as [Hlen Hcount].
    pose proof (filter_length_le (is_new existing) products).
    pose proof (firstn_le_length 5 found').
    pose proof (filter_firstn_length (found_is_new existing) 5 found').
    unfold found_is_new in *. lia.
Qed.

Lemma result_size_bounded_witness :
  (List.length [Site.details_A] <= 5)%nat
  /\ (List.length [Site.details_A]
      <= List.length (filter (found_is_new ["B"])
                        (found_products Site.three_products)))%nat.
Proof.
  apply (result_size_bounded Site.shop Site.listing_url ["B"] []
           Site.three_products [Site.details_A]); reflexivity.
Defined.

(** ** Partial failures *)

(** C4: in the fan-out of [get_names_and_fetch], a product whose detail
    query raises yields no result, the request still returns, and the
    returned list is made of the results of the other products only. *)
Theorem failed_detail_query_omits_product
    w url existing tr products t1 before p after r1 t2 responses e :
  get_product_names w url (in_context tr) = (Returned (Some products), t1) ->
  filter (is_new existing) products = before ++ p :: after ->
  gather (map (fetch_product w) before) t1 = (Returned r1, t2) ->
  goto_answer w (at_goto t2) (link p) = Returned responses ->
  wheel_answer w (at_wheel t2 (link p)) 0 3000 = Returned tt ->
  query_answer w (at_query t2 (link p) 3000) PRODUCT_DETAIL_QUERY
  = Raised e ->
  exists t3 r2,
    fetch_product w p t2 = (Returned None, t3)
    /\ fst (gather (map (fetch_product w) after) t3) = Returned r2
    /\ fst (get_names_and_fetch w url existing tr)
       = Returned (not_none r1 ++ not_none r2).
Proof.
  intros Hl Hnew Hbefore Hg Hw Hq.
  pose proof (fetch_product_query_failed w p t2 responses e Hg Hw Hq) as Hp.
  destruct (gather_fetch_product w after
              (at_query t2 (link p) 3000
               ++ [EQueryData PRODUCT_DETAIL_QUERY; details_error (Some p) e]))
    as (r2 & t4 & Hafter & _).
  do 2 eexists. split; [exact Hp|]. split; [now rewrite Hafter|].
  rewrite get_names_and_fetch_stages, Hl, Hnew, map_app.
  rewrite (gather_app _ _ _ _ _ Hbefore). cbn [map gather].
  unfold bind at 1. rewrite Hp. unfold bind at 1. rewrite Hafter.
  unfold ret. cbn. now rewrite not_none_app.
Qed.

Lemma failed_detail_query_omits_product_witness :
  exists t3 r2,
    fetch_product Site.shop
      (mkProductBase "C" "https://demandvape.com/c" "c.png")
      (snd (fetch_product Site.shop
              (mkProductBase "A" "https://demandvape.com/a" "a.png")
              (snd (get_product_names Site.shop Site.listing_url
                      (in_context [])))))
    = (Returned None, t3)
    /\ fst (gather (map (fetch_product Site.shop) []) t3) = Returned r2
    /\ fst (get_names_and_fetch Site.shop Site.listing_url ["B"] [])
       = Returned (not_none [Some Site.details_A] ++ not_none r2).
Proof.
  eapply (failed_detail_query_omits_product Site.shop Site.listing_url ["B"]
            [] _ _ [mkProductBase "A" "https://demandvape.com/a" "a.png"]
            (mkProductBase "C" "https://demandvape.com/c" "c.png") []
            [Some Site.details_A] _ [] Site.timeout_error);
    reflexivity.
Defined.

(** ** Order of the result *)

Lemma fetched_in_order_base ps rs :
  Forall2 keeps_identity ps rs ->
  map base (not_none rs) = fetched_in_order ps rs.
Proof.
  induction 1 as [|p r ps rs Hp _ IH]; [reflexivity|].
  destruct r as [d|]; cbn; [|exact IH].
  now rewrite IH, (Hp d eq_refl).
Qed.

(** C9: a list returned by [get_names_and_fetch] is, product by product,
    the listing restricted to the products that are not known and whose
    detail fetch gave a result, in the order of the listing. *)
Theorem result_in_listing_order w url existing tr l :
  fst (get_names_and_fetch w url existing tr) = Returned l ->
  exists products t1 fetched t2,
    get_product_names w url (in_context tr) = (Returned (Some products), t1)
    /\ gather (map (fetch_product w) (filter (is_new existing) products)) t1
       = (Returned fetched, t2)
    /\ List.length fetched
       = List.length (filter (is_new existing) products)
    /\ l = not_none fetched
    /\ map base l
       = fetched_in_order (filter (is_new existing) products) fetched.
Proof.
  intros H.
  apply get_names_and_fetch_returned in H
    as (products & t1 & fetched & t2 & Hl & Hf & HF & ->).
  exists products, t1, fetched, t2.
  repeat split; try assumption.
  - symmetry. now apply Forall2_length in HF.
  - now apply fetched_in_order_base.
Qed.

Lemma result_in_listing_order_witness :
  exists products t1 fetched t2,
    get_product_names Site.shop Site.listing_url (in_context [])
    = (Returned (Some products), t1)
    /\ gather (map (fetch_product Site.shop) (filter (is_new []) products)) t1
       = (Returned fetched, t2)
    /\ List.length fetched = List.length (filter (is_new []) products)
    /\ [Site.details_A; Site.details_B] = not_none fetched
    /\ map base [Site.details_A; Site.details_B]
       = fetched_in_order (filter (is_new []) products) fetched.
Proof.
  apply (result_in_listing_order Site.shop Site.listing_url [] []
           [Site.details_A; Site.details_B]).
  reflexivity.
Defined.

(** ** Failures of detail extraction *)

(** C5 as stated fails: page navigation is outside the [try] of
    [fetch_product_details], so a navigation failure is raised to the
    caller, and nothing is logged. *)
Lemma navigation_failure_is_raised :
  fetch_product_details Site.unreachable "https://demandvape.com/a" None []
  = (Raised (ExternalError "net::ERR_CONNECTION_REFUSED"),
     [ENewPage; EGoto "https://demandvape.com/a"])
  /\ ~ (forall w url product tr,
          exists r, fst (fetch_product_details w url product tr)
                    = Returned r).
Proof.
  split; [reflexivity|]. intros H.
  destruct (H Site.unreachable "https://demandvape.com/a" None [])
    as [r Hr].
  discriminate Hr.
Qed.

(** C5, amended: a failure of page navigation or of scrolling is raised to
    the caller of [fetch_product_details]; once the page is navigated and
    scrolled, [fetch_product_details] never raises: it returns the details,
    or it logs the product's name (["Unknown"] without a base product)
    with the exception and returns no result, which is what happens when
    the detail query raises. *)
Theorem detail_extraction_failures w url product tr :
  (forall e,
     goto_answer w (at_goto tr) url = Raised e
     \/ ((exists responses,
            goto_answer w (at_goto tr) url = Returned responses)
         /\ wheel_answer w (at_wheel tr url) 0 3000 = Raised e) ->
     fst (fetch_product_details w url product tr) = Raised e)
  /\ (forall responses,
        goto_answer w (at_goto tr) url = Returned responses ->
        wheel_answer w (at_wheel tr url) 0 3000 = Returned tt ->
        (exists d tr',
           fetch_product_details w url product tr = (Returned (Some d), tr'))
        \/ (exists e tr',
              fetch_product_details w url product tr
              = (Returned None, tr' ++ [details_error product e])))
  /\ (forall responses e,
        goto_answer w (at_goto tr) url = Returned responses ->
        wheel_answer w (at_wheel tr url) 0 3000 = Returned tt ->
        query_answer w (at_query tr url 3000) PRODUCT_DETAIL_QUERY
        = Raised e ->
        fetch_product_details w url product tr
        = (Returned None,
           at_query tr url 3000
           ++ [EQueryData PRODUCT_DETAIL_QUERY; details_error product e])).
Proof.
  unfold at_goto, at_wheel, at_query. repeat split.
  - intros e [Hg|[[responses Hg] Hw]];
      unfold fetch_product_details; run; cbn; rewrite Hg; [reflexivity|].
    tidy. now rewrite Hw.
  - intros responses Hg Hw.
    unfold fetch_product_details, details_error. run. cbn.
    rewrite Hg. tidy. rewrite Hw. tidy.
    set (q1 := [ENewPage; EGoto url; EWheel 0 3000;
                EQueryData PRODUCT_DETAIL_QUERY]).
    set (q2 := [ENewPage; EGoto url; EWheel 0 3000;
                EQueryData PRODUCT_DETAIL_QUERY;
                EQueryData PRODUCT_INFO_QUERY]).
    destruct (query_answer w _ PRODUCT_DETAIL_QUERY) as [e|response].
    { right. exists e, (tr ++ q1). subst q1. tidy. reflexivity. }
    destruct product as [p|].
    { destruct (ProductDetails_merge _ response) as [e|d].
      - right. exists e, (tr ++ q1). subst q1. tidy. reflexivity.
      - left. do 2 eexists. reflexivity. }
    destruct (query_answer w _ PRODUCT_INFO_QUERY) as [e|product_info].
    { right. exists e, (tr ++ q2). subst q2. tidy. reflexivity. }
    destruct (py_get product_info "product_name" PNone) as [e|n].
    { right. exists e, (tr ++ q2). subst q2. tidy. reflexivity. }
    destruct (py_get product_info "product_link" PNone) as [e|l].
    { right. exists e, (tr ++ q2). subst q2. tidy. reflexivity. }
    destruct (py_get product_info "product_img" PNone) as [e|i].
    { right. exists e, (tr ++ q2). subst q2. tidy. reflexivity. }
    destruct (ProductBase_init _ _ _) as [e|product_details].
    { right. exists e, (tr ++ q2). subst q2. tidy. reflexivity. }
    destruct (ProductDetails_merge _ response) as [e|d].
    + right. exists e, (tr ++ q2). subst q2. tidy. reflexivity.
    + left. do 2 eexists. reflexivity.
  - intros responses e Hg Hw Hq.
    unfold fetch_product_details, details_error. run. cbn.
    rewrite Hg. tidy. rewrite Hw. tidy. rewrite Hq. tidy. reflexivity.
Qed.

Lemma detail_extraction_failures_witness :
  fetch_product_details Site.shop "https://demandvape.com/c" None []
  = (Returned None,
     [ENewPage; EGoto "https://demandvape.com/c"; EWheel 0 3000;
      EQueryData PRODUCT_DETAIL_QUERY;
      ELogError
        "Error fetching details for product Unknown: Timeout 30000ms exceeded"]).
Proof.
  apply (proj2 (proj2 (detail_extraction_failures Site.shop
                         "https://demandvape.com/c" None []))
           [] Site.timeout_error); reflexivity.
Defined.

(** ** Scrolling *)

(** C8 as stated fails: detail extraction scrolls by 3000, listing
    extraction by 4000. *)
Lemma detail_scroll_not_greater :
  ~ (forall w url product tr url' tr' dy dy',
       In dy (scrolled (events_of (fetch_product_details w url product) tr)) ->
       In dy' (scrolled (events_of (get_product_names w url') tr')) ->
       dy > dy').
Proof.
  intros H.
  assert (H' : 3000 > 4000).
  { apply (H Site.shop "https://demandvape.com/a" None [] Site.listing_url []);
      now left. }
  lia.
Qed.

(** C8, amended: detail extraction scrolls its page down once, by 3000,
    listing extraction scrolls its page down once, by 4000, and the first
    distance is strictly smaller than the second. *)
Theorem detail_scroll_shorter w url product tr url' tr' responses responses' :
  goto_answer w (at_goto tr) url = Returned responses ->
  goto_answer w (at_goto tr') url' = Returned responses' ->
  exists dy dy',
    scrolled (events_of (fetch_product_details w url product) tr) = [dy]
    /\ scrolled (events_of (get_product_names w url') tr') = [dy']
    /\ dy = 3000 /\ dy' = 4000 /\ dy < dy'.
Proof.
  unfold at_goto. intros Hg Hg'. exists 3000, 4000.
  destruct (fetch_product_details_events w url product tr responses Hg)
    as (evs & E & Hs).
  destruct (get_product_names_events w url' tr' responses' Hg')
    as (evs' & E' & Hs').
  rewrite (events_of_app _ _ _ E), (events_of_app _ _ _ E').
  rewrite !scrolled_app, Hs, Hs'. repeat split; reflexivity.
Qed.

Lemma detail_scroll_shorter_witness :
  exists dy dy',
    scrolled (events_of (fetch_product_details Site.shop
                           "https://demandvape.com/a" None) []) = [dy]
    /\ scrolled (events_of (get_product_names Site.shop Site.listing_url) [])
       = [dy']
    /\ dy = 3000 /\ dy' = 4000 /\ dy < dy'.
Proof.
  apply (detail_scroll_shorter Site.shop "https://demandvape.com/a" None []
           Site.listing_url [] [] []); reflexivity.
Defined.

(** ** Search: the redirect branch *)



(** C10: when the redirect response of the search URL carries no Location
    header, the handler still raises the flag and leaves the final URL at
    the search URL, so the redirect branch runs detail extraction on the
    search URL itself. *)
Theorem redirect_without_location w keyword existing tr before r after :
  goto_answer w (at_search tr) (search_url_of keyword)
  = Returned (before ++ r :: after) ->
  wait_answer w (at_wait tr (search_url_of keyword)) "load" = Returned tt ->
  is_redirect_of (search_url_of keyword) r = true ->
  header_lookup (resp_headers r) "location" = None ->
  existsb (is_redirect_of (search_url_of keyword)) after = false ->
  observe_redirect (search_url_of keyword) (before ++ r :: after)
  = (true, search_url_of keyword)
  /\ search_and_scrape w keyword existing tr
     = redirect_result
         (fetch_product_details w (search_url_of keyword) None
            (at_branch tr (search_url_of keyword))).
Proof.
  intros Hg Hw Hr Hloc Hafter.
  assert (Ho : observe_redirect (search_url_of keyword) (before ++ r :: after)
               = (true, search_url_of keyword)).
  { rewrite (observe_redirect_last _ before r after Hr Hafter).
    unfold headers_get. now rewrite Hloc. }
  split; [exact Ho|].
  rewrite (search_and_scrape_redirected w keyword existing tr _ Hg Hw);
    now rewrite Ho.
Qed.

Lemma redirect_without_location_witness :
  observe_redirect (search_url_of "A") ([] ++ Site.bare_redirect :: [])
  = (true, search_url_of "A")
  /\ search_and_scrape Site.lost_shop "A" [] []
     = redirect_result
         (fetch_product_details Site.lost_shop (search_url_of "A") None
            (at_branch [] (search_url_of "A"))).
Proof.
  apply (redirect_without_location Site.lost_shop "A" [] [] []
           Site.bare_redirect []); reflexivity.
Defined.

(** ** Search: the listing branch *)

(** C7: when the navigation to the search URL completes and no response
    is a redirect of that URL, [search_and_scrape] gives what
    [get_names_and_fetch] gives on the search URL with the same known
    names. *)
Theorem no_redirect_runs_listing_flow w keyword existing tr responses :
  goto_answer w (at_search tr) (search_url_of keyword) = Returned responses ->
  wait_answer w (at_wait tr (search_url_of keyword)) "load" = Returned tt ->
  existsb (is_redirect_of (search_url_of keyword)) responses = false ->
  fst (search_and_scrape w keyword existing tr)
  = fst (get_names_and_fetch w (search_url_of keyword) existing
           (at_branch tr (search_url_of keyword))).
Proof.
  intros Hg Hw Hex. rewrite search_and_scrape_stages. cbv zeta.
  rewrite Hg, Hw, observe_redirect_flag, Hex. cbn [negb].
  now destruct (get_names_and_fetch w _ existing _) as [[e|l] t].
Qed.

Lemma no_redirect_runs_listing_flow_witness :
  fst (search_and_scrape Site.shop "pod" ["B"] []) = Returned [Site.details_A]
  /\ fst (search_and_scrape Site.shop "pod" ["B"] [])
     = fst (get_names_and_fetch Site.shop (search_url_of "pod") ["B"]
              (at_branch [] (search_url_of "pod"))).
Proof.
  split; [reflexivity|].
  apply (no_redirect_runs_listing_flow Site.shop "pod" ["B"] [] []);
    reflexivity.
Defined.

(** * Further properties of the pipeline *)

(** ** What a request does to the browser *)

Lemma navigated_app tr1 tr2 :
  navigated (tr1 ++ tr2) = navigated tr1 ++ navigated tr2.
Proof.
  induction tr1 as [|[] tr1 IH]; cbn; now rewrite ?IH.
Qed.

Lemma closes_app tr1 tr2 :
  closes (tr1 ++ tr2) = (closes tr1 + closes tr2)%nat.
Proof.
  induction tr1 as [|[] tr1 IH]; cbn; now rewrite ?IH.
Qed.

Lemma page_work_quiet evs :
  forallb page_work evs = true -> navigated evs = [] /\ closes evs = 0%nat.
Proof.
  induction evs as [|[] evs IH]; cbn; try discriminate; auto.
Qed.

(** Detail extraction opens one page, navigates it once, and then only
    scrolls, queries and logs. *)
Lemma fetch_product_details_trace w url product tr :
  exists evs,
    snd (fetch_product_details w url product tr)
    = tr ++ [ENewPage; EGoto url] ++ evs
    /\ forallb page_work evs = true.
Proof.
  unfold fetch_product_details. run. cbn. tidy.
  destruct (goto_answer w _ _) as [e|responses]; [page_works|]. tidy.
  destruct (wheel_answer w _ _ _) as [e|[]]; [page_works|]. tidy.
  destruct (query_answer w _ PRODUCT_DETAIL_QUERY) as [e|response];
    [page_works|].
  destruct product as [p|].
  { destruct (ProductDetails_merge _ response); page_works. }
  destruct (query_answer w _ PRODUCT_INFO_QUERY) as [e|product_info];
    [page_works|].
  destruct (py_get product_info "product_name" PNone); [page_works|].
  destruct (py_get product_info "product_link" PNone); [page_works|].
  destruct (py_get product_info "product_img" PNone); [page_works|].
  destruct (ProductBase_init _ _ _); [page_works|].
  destruct (ProductDetails_merge _ response); page_works.
Qed.

Lemma get_product_names_trace w url tr :
  exists evs,
    snd (get_product_names w url tr) = tr ++ [ENewPage; EGoto url] ++ evs
    /\ forallb page_work evs = true.
Proof.
  unfold get_product_names. run. cbn. tidy.
  destruct (goto_answer w _ _) as [e|responses]; [page_works|]. tidy.
  destruct (wheel_answer w _ _ _) as [e|[]]; [page_works|]. tidy.
  destruct (query_answer w _ PRODUCT_LIST_QUERY) as [e|response];
    [page_works|].
  destruct (py_get response "products" (PList [])) as [e|found];
    [page_works|].
  destruct (slice5_iter found) as [e|first5]; [page_works|].
  destruct (res_map ProductBase_kwargs first5); page_works.
Qed.

Lemma fetch_product_trace w p tr :
  exists evs,
    snd (fetch_product w p tr) = tr ++ evs
    /\ navigated evs = [link p] /\ closes evs = 0%nat.
Proof.
  destruct (fetch_product_details_trace w (link p) (Some p) tr)
    as (evs & E & Hq).
  apply page_work_quiet in Hq as [Hn Hc].
  unfold fetch_product, try_except.
  destruct (fetch_product_details w (link p) (Some p) tr) as [[e|r] t];
    cbn [snd] in E; subst t.
  - run. cbn [snd]. exists ([ENewPage; EGoto (link p)] ++ evs
                            ++ [processing_error e]).
    split; [now tidy|]. cbn [app navigated closes].
    rewrite navigated_app, closes_app, Hn, Hc. now split.
  - exists ([ENewPage; EGoto (link p)] ++ evs). split; [reflexivity|].
    cbn [app navigated closes]. now rewrite Hn, Hc.
Qed.

Lemma gather_fetch_product_trace w ps tr :
  exists evs,
    snd (gather (map (fetch_product w) ps) tr) = tr ++ evs
    /\ navigated evs = map link ps /\ closes evs = 0%nat.
Proof.
  revert tr. induction ps as [|p ps IH]; intros tr; cbn [map gather].
  - exists []. cbn. now rewrite app_nil_r.
  - destruct (fetch_product_trace w p tr) as (evs1 & E1 & Hn1 & Hc1).
    destruct (fetch_product_returns w p tr) as (r & t1 & Er & _).
    rewrite Er in E1. cbn [snd] in E1. subst t1.
    destruct (IH (tr ++ evs1)) as (evs2 & E2 & Hn2 & Hc2).
    destruct (gather_fetch_product w ps (tr ++ evs1)) as (rs & t2 & Eg & _).
    rewrite Eg in E2. cbn [snd] in E2. subst t2.
    exists (evs1 ++ evs2). unfold bind. rewrite Er, Eg. cbn [snd ret].
    rewrite navigated_app, closes_app, Hn1, Hn2, Hc1, Hc2, app_assoc.
    now repeat split.
Qed.

(** The whole trace of [get_names_and_fetch], by its outcome. *)
Lemma get_names_and_fetch_trace w url existing tr :
  exists evs1 evs2,
    forallb page_work evs1 = true
    /\ closes evs2 = 0%nat
    /\ match get_product_names w url (in_context tr) with
       | (Returned (Some products), _) =>
           navigated evs2 = map link (filter (is_new existing) products)
           /\ exists l,
                get_names_and_fetch w url existing tr
                = (Returned l,
                   in_context tr ++ [ENewPage; EGoto url] ++ evs1 ++ evs2
                   ++ [EBrowserClose; EPlaywrightStop])
       | _ =>
           evs2 = []
           /\ exists e,
                get_names_and_fetch w url existing tr
                = (Raised e,
                   in_context tr ++ [ENewPage; EGoto url] ++ evs1
                   ++ [EPlaywrightStop])
       end.
Proof.
  destruct (get_product_names_trace w url (in_context tr)) as (evs1 & E1 & H1).
  rewrite get_names_and_fetch_stages.
  destruct (get_product_names w url (in_context tr))
    as [[e|[products|]] t1]; cbn [snd] in E1; subst t1.
  - exists evs1, []. repeat split; try assumption. exists e. now tidy.
  - destruct (gather_fetch_product_trace w
                (filter (is_new existing) products)
                (in_context tr ++ [ENewPage; EGoto url] ++ evs1))
      as (evs2 & E2 & Hn & Hc).
    destruct (gather_fetch_product w (filter (is_new existing) products)
                (in_context tr ++ [ENewPage; EGoto url] ++ evs1))
      as (fetched & t2 & Eg & _).
    rewrite Eg in E2 |- *. cbn [snd] in E2. subst t2.
    exists evs1, evs2. repeat split; try assumption.
    exists (not_none fetched). now tidy.
  - exists evs1, []. repeat split; try assumption. eexists. now tidy.
Qed.



(** X2: [get_names_and_fetch] closes its browser exactly when it returns
    a list; when it raises, [browser.close()] is not reached. *)
Theorem browser_closed_only_on_return w url existing tr :
  closes (events_of (get_names_and_fetch w url existing) tr)
  = match fst (get_names_and_fetch w url existing tr) with
    | Returned _ => 1%nat
    | Raised _ => 0%nat
    end.
Proof.
  destruct (get_names_and_fetch_trace w url existing tr)
    as (evs1 & evs2 & H1 & Hc & H).
  apply page_work_quiet in H1 as [_ Hc1].
  destruct (get_product_names w url (in_context tr))
    as [[e|[products|]] t1].
  - destruct H as [-> [e' E]].
    erewrite events_of_app; [|rewrite E; unfold in_context; tidy; reflexivity].
    rewrite E. cbn. now rewrite closes_app, Hc1.
  - destruct H as [_ [l E]].
    erewrite events_of_app; [|rewrite E; unfold in_context; tidy; reflexivity].
    rewrite E. cbn. now rewrite !closes_app, Hc1, Hc.
  - destruct H as [-> [e' E]].
    erewrite events_of_app; [|rewrite E; unfold in_context; tidy; reflexivity].
    rewrite E. cbn. now rewrite closes_app, Hc1.
Qed.

(** ** Listing extraction *)

Lemma res_map_length {A B} (f : A -> Res B) l l' :
  res_map f l = Returned l' -> List.length l' = List.length l.
Proof.
  revert l'. induction l as [|x l IH]; intros l'; cbn [res_map].
  - intros H. now injection H as <-.
  - destruct (f x); cbn [res_bind]; try discriminate.
    destruct (res_map f l) as [e|ys]; cbn [res_bind]; try discriminate.
    intros H. injection H as <-. cbn. now rewrite (IH ys eq_refl).
Qed.

Lemma res_map_raised {A B} (f : A -> Res B) l x e :
  In x l -> f x = Raised e -> exists e', res_map f l = Raised e'.
Proof.
  induction l as [|y l IH]; cbn [In res_map]; [easy|].
  intros [->|Hin] Hx.
  - rewrite Hx. now exists e.
  - destruct (f y) as [e'|b]; cbn [res_bind]; [now exists e'|].
    destruct (IH Hin Hx) as [e' ->]. now exists e'.
Qed.

Lemma slice5_iter_length v first5 :
  slice5_iter v = Returned first5 -> (List.length first5 <= 5)%nat.
Proof.
  intros H. apply slice5_iter_returned in H as [(s & _ & ->)|(l & _ & ->)];
    apply firstn_le_length.
Qed.

(** X3: once its page is navigated and scrolled, listing extraction never
    raises: it returns at most five products and logs nothing, or it logs
    the exception and returns no result. *)
Theorem listing_extraction_outcome w url tr responses :
  goto_answer w (at_goto tr) url = Returned responses ->
  wheel_answer w (at_wheel tr url) 0 4000 = Returned tt ->
  exists r evs,
    get_product_names w url tr
    = (Returned r,
       at_query tr url 4000 ++ EQueryData PRODUCT_LIST_QUERY :: evs)
    /\ match r with
       | Some products => (List.length products <= 5)%nat /\ evs = []
       | None => exists e, evs = [products_error e]
       end.
Proof.
  unfold at_goto, at_wheel, at_query. intros Hg Hw.
  unfold get_product_names, products_error. run. cbn. tidy.
  rewrite Hg. tidy. rewrite Hw. tidy.
  destruct (query_answer w _ PRODUCT_LIST_QUERY) as [e|response].
  { exists None, [products_error e].
    split; [tidy; reflexivity | now exists e]. }
  destruct (py_get response "products" (PList [])) as [e|found].
  { exists None, [products_error e].
    split; [tidy; reflexivity | now exists e]. }
  destruct (slice5_iter found) as [e|first5] eqn:Es.
  { exists None, [products_error e].
    split; [tidy; reflexivity | now exists e]. }
  destruct (res_map ProductBase_kwargs first5) as [e|products] eqn:Em.
  { exists None, [products_error e].
    split; [tidy; reflexivity | now exists e]. }
  exists (Some products), []. split; [tidy; reflexivity|].
  split; [|reflexivity].
  rewrite (res_map_length _ _ _ Em). now apply slice5_iter_length in Es.
Qed.

Lemma listing_extraction_outcome_witness :
  exists r evs,
    get_product_names Site.shop Site.listing_url []
    = (Returned r,
       at_query [] Site.listing_url 4000
       ++ EQueryData PRODUCT_LIST_QUERY :: evs)
    /\ match r with
       | Some products => (List.length products <= 5)%nat /\ evs = []
       | None => exists e, evs = [products_error e]
       end.
Proof.
  apply (listing_extraction_outcome Site.shop Site.listing_url [] []);
    reflexivity.
Defined.

(** X4: listing extraction validates the first five entries of the list
    the query found and never looks at the others: its result is those
    five entries as products when all of them are well formed, and no
    result otherwise. *)
Theorem listing_reads_first_five_only w url tr responses response found :
  goto_answer w (at_goto tr) url = Returned responses ->
  wheel_answer w (at_wheel tr url) 0 4000 = Returned tt ->
  query_answer w (at_query tr url 4000) PRODUCT_LIST_QUERY
  = Returned response ->
  py_get response "products" (PList []) = Returned (PList found) ->
  fst (get_product_names w url tr)
  = match res_map ProductBase_kwargs (firstn 5 found) with
    | Returned products => Returned (Some products)
    | Raised _ => Returned None
    end.
Proof.
  unfold at_goto, at_wheel, at_query. intros Hg Hw Hq Hp.
  remember (firstn 5 found) as first5 eqn:E5.
  unfold get_product_names. run. cbn. tidy.
  rewrite Hg. tidy. rewrite Hw. tidy. rewrite Hq, Hp.
  change (slice5_iter (PList found)) with (Returned (firstn 5 found)).
  rewrite <- E5. cbv beta iota.
  now destruct (res_map ProductBase_kwargs first5).
Qed.

Lemma listing_reads_first_five_only_witness :
  fst (get_product_names Site.crowded_shop Site.listing_url [])
  = match res_map ProductBase_kwargs (firstn 5 Site.six_entries) with
    | Returned products => Returned (Some products)
    | Raised _ => Returned None
    end
  /\ (exists products,
        fst (get_product_names Site.crowded_shop Site.listing_url [])
        = Returned (Some products)
        /\ List.length products = 5%nat).
Proof.
  split.
  - apply (listing_reads_first_five_only Site.crowded_shop Site.listing_url
             [] [] (PDict [("products", PList Site.six_entries)])
             Site.six_entries); reflexivity.
  - eexists. split; reflexivity.
Defined.

(** X5: one malformed entry among the first five makes the whole listing
    fail: listing extraction returns no result, and [get_names_and_fetch]
    raises on it, whatever the other entries are. *)
Theorem malformed_entry_fails_listing
    w url existing tr responses response found v e :
  goto_answer w (at_goto (in_context tr)) url = Returned responses ->
  wheel_answer w (at_wheel (in_context tr) url) 0 4000 = Returned tt ->
  query_answer w (at_query (in_context tr) url 4000) PRODUCT_LIST_QUERY
  = Returned response ->
  py_get response "products" (PList []) = Returned (PList found) ->
  In v (firstn 5 found) ->
  ProductBase_kwargs v = Raised e ->
  fst (get_product_names w url (in_context tr)) = Returned None
  /\ fst (get_names_and_fetch w url existing tr)
     = Raised (TypeError "'NoneType' object is not iterable").
Proof.
  unfold at_goto, at_wheel, at_query. intros Hg Hw Hq Hp Hin Hv.
  destruct (res_map_raised _ _ _ _ Hin Hv) as [e' Hm].
  assert (Hn : fst (get_product_names w url (in_context tr)) = Returned None).
  { unfold get_product_names. run. cbn. tidy.
    rewrite Hg. tidy. rewrite Hw. tidy. rewrite Hq, Hp.
    change (slice5_iter (PList found)) with (Returned (firstn 5 found)).
    cbv beta iota. now rewrite Hm. }
  split; [exact Hn|].
  rewrite get_names_and_fetch_stages.
  now destruct (get_product_names w url _) as [[e''|[products|]] t1];
    cbn in Hn; try discriminate.
Qed.

Lemma malformed_entry_fails_listing_witness :
  fst (get_product_names Site.sloppy_shop Site.listing_url (in_context []))
  = Returned None
  /\ fst (get_names_and_fetch Site.sloppy_shop Site.listing_url [] [])
     = Raised (TypeError "'NoneType' object is not iterable").
Proof.
  apply (malformed_entry_fails_listing Site.sloppy_shop Site.listing_url []
           [] [] (PDict [("products", PList Site.sloppy_entries)])
           Site.sloppy_entries
           (PDict [("product_name", PStr "B")])
           (ValidationError "name: field required"));
    [reflexivity | reflexivity | reflexivity | reflexivity
     | right; left; reflexivity | reflexivity].
Defined.

(** X6: when the answer of the listing query has no [products] key, the
    request returns the empty list: no detail page is opened, and the
    browser is closed. *)
Theorem missing_products_key_gives_empty_result
    w url existing tr responses dict :
  goto_answer w (at_goto (in_context tr)) url = Returned responses ->
  wheel_answer w (at_wheel (in_context tr) url) 0 4000 = Returned tt ->
  query_answer w (at_query (in_context tr) url 4000) PRODUCT_LIST_QUERY
  = Returned (PDict dict) ->
  dict_get dict "products" = None ->
  get_names_and_fetch w url existing tr
  = (Returned [],
     at_query (in_context tr) url 4000
     ++ [EQueryData PRODUCT_LIST_QUERY; EBrowserClose; EPlaywrightStop]).
Proof.
  unfold at_goto, at_wheel, at_query. intros Hg Hw Hq Hk.
  rewrite get_names_and_fetch_stages.
  unfold get_product_names. run. cbn. tidy.
  rewrite Hg. tidy. rewrite Hw. tidy. rewrite Hq. cbn. rewrite Hk. cbn.
  tidy. reflexivity.
Qed.

Lemma missing_products_key_gives_empty_result_witness :
  get_names_and_fetch Site.empty_shop Site.listing_url ["B"] []
  = (Returned [],
     at_query (in_context []) Site.listing_url 4000
     ++ [EQueryData PRODUCT_LIST_QUERY; EBrowserClose; EPlaywrightStop]).
Proof.
  apply (missing_products_key_gives_empty_result Site.empty_shop
           Site.listing_url ["B"] [] [] [("total", PStr "0")]);
    reflexivity.
Defined.

(** ** Detail extraction *)

(** X7: on a navigated and scrolled page, detail extraction always issues
    the attribute query first; it issues the identity query only when no
    base product was supplied, and only after the attribute query
    answered. *)
Theorem identity_query_only_without_base w url product tr responses :
  goto_answer w (at_goto tr) url = Returned responses ->
  wheel_answer w (at_wheel tr url) 0 3000 = Returned tt ->
  queried (events_of (fetch_product_details w url product) tr)
  = match product, query_answer w (at_query tr url 3000)
                     PRODUCT_DETAIL_QUERY with
    | None, Returned _ => [PRODUCT_DETAIL_QUERY; PRODUCT_INFO_QUERY]
    | _, _ => [PRODUCT_DETAIL_QUERY]
    end.
Proof.
  unfold at_goto, at_wheel, at_query, events_of. intros Hg Hw.
  unfold fetch_product_details. run. cbn. tidy.
  rewrite Hg. tidy. rewrite Hw. tidy.
  destruct (query_answer w _ PRODUCT_DETAIL_QUERY) as [e|response].
  { destruct product; leaf. }
  destruct product as [p|].
  { destruct (ProductDetails_merge _ response); leaf. }
  destruct (query_answer w _ PRODUCT_INFO_QUERY) as [e|product_info];
    [leaf|].
  destruct (py_get product_info "product_name" PNone); [leaf|].
  destruct (py_get product_info "product_link" PNone); [leaf|].
  destruct (py_get product_info "product_img" PNone); [leaf|].
  destruct (ProductBase_init _ _ _); [leaf|].
  destruct (ProductDetails_merge _ response); leaf.
Qed.

Lemma identity_query_only_without_base_witness :
  queried (events_of (fetch_product_details Site.shop
                        "https://demandvape.com/a" None) [])
  = [PRODUCT_DETAIL_QUERY; PRODUCT_INFO_QUERY]
  /\ queried (events_of (fetch_product_details Site.shop
                           "https://demandvape.com/a"
                           (Some (base Site.details_A))) [])
     = [PRODUCT_DETAIL_QUERY].
Proof.
  split.
  - apply (identity_query_only_without_base Site.shop
             "https://demandvape.com/a" None [] []); reflexivity.
  - apply (identity_query_only_without_base Site.shop
             "https://demandvape.com/a" (Some (base Site.details_A)) [] []);
      reflexivity.
Defined.

Lemma validate_str_returned field v s :
  validate_str field (Some v) = Returned s -> v = PStr s.
Proof.
  destruct v; cbn; try discriminate. intros H. now injection H as ->.
Qed.

Lemma ProductBase_init_returned n l i pb :
  ProductBase_init (Some n) (Some l) (Some i) = Returned pb ->
  n = PStr (name pb) /\ l = PStr (link pb) /\ i = PStr (img pb).
Proof.
  unfold ProductBase_init.
  destruct (validate_str "name" (Some n)) as [e|n'] eqn:En;
    cbn [res_bind]; try discriminate.
  destruct (validate_str "link" (Some l)) as [e|l'] eqn:El;
    cbn [res_bind]; try discriminate.
  destruct (validate_str "img" (Some i)) as [e|i'] eqn:Ei;
    cbn [res_bind]; try discriminate.
  intros H. injection H as <-. cbn.
  apply validate_str_returned in En, El, Ei. now subst.
Qed.

(** X8: details extracted without a base product take their name, link
    and image from the answer of the identity query on that page, and
    their attributes from the answer of the attribute query; the link is
    the one the page reports, whatever URL was navigated. *)
Theorem identity_read_from_page w url tr d tr' :
  fetch_product_details w url None tr = (Returned (Some d), tr') ->
  exists response info,
    query_answer w (at_query tr url 3000) PRODUCT_DETAIL_QUERY
    = Returned response
    /\ query_answer w
         (at_query tr url 3000 ++ [EQueryData PRODUCT_DETAIL_QUERY])
         PRODUCT_INFO_QUERY
       = Returned info
    /\ py_get info "product_name" PNone = Returned (PStr (name (base d)))
    /\ py_get info "product_link" PNone = Returned (PStr (link (base d)))
    /\ py_get info "product_img" PNone = Returned (PStr (img (base d)))
    /\ ProductDetails_merge (base d) response = Returned d.
Proof.
  unfold at_query. unfold fetch_product_details. run. cbn. tidy.
  destruct (goto_answer w _ _); try discriminate. tidy.
  destruct (wheel_answer w _ _ _); try discriminate. tidy.
  destruct (query_answer w _ PRODUCT_DETAIL_QUERY) as [e|response];
    try discriminate.
  destruct (query_answer w _ PRODUCT_INFO_QUERY) as [e|info];
    try discriminate.
  destruct (py_get info "product_name" PNone) as [e|n] eqn:Hn;
    try discriminate.
  destruct (py_get info "product_link" PNone) as [e|l] eqn:Hl;
    try discriminate.
  destruct (py_get info "product_img" PNone) as [e|i] eqn:Hi;
    try discriminate.
  destruct (ProductBase_init _ _ _) as [e|pb] eqn:Ei; try discriminate.
  destruct (ProductDetails_merge pb response) as [e|d'] eqn:Em;
    try discriminate.
  intros H. injection H as <- _.
  pose proof (ProductDetails_merge_base _ _ _ Em) as Hb.
  apply ProductBase_init_returned in Ei as (-> & -> & ->).
  exists response, info. rewrite Hb. now repeat split.
Qed.

Lemma identity_read_from_page_witness :
  exists response info,
    query_answer Site.shop (at_query [] "https://demandvape.com/a" 3000)
      PRODUCT_DETAIL_QUERY
    = Returned response
    /\ query_answer Site.shop
         (at_query [] "https://demandvape.com/a" 3000
          ++ [EQueryData PRODUCT_DETAIL_QUERY])
         PRODUCT_INFO_QUERY
       = Returned info
    /\ py_get info "product_name" PNone
       = Returned (PStr (name (base Site.details_A)))
    /\ py_get info "product_link" PNone
       = Returned (PStr (link (base Site.details_A)))
    /\ py_get info "product_img" PNone
       = Returned (PStr (img (base Site.details_A)))
    /\ ProductDetails_merge (base Site.details_A) response
       = Returned Site.details_A.
Proof.
  eapply (identity_read_from_page Site.shop "https://demandvape.com/a" []
            Site.details_A).
  reflexivity.
Defined.

(** X9: when the attribute query answers something that is not a dict, or
    a dict with a key [name], [link] or [img], the product cannot be built
    and detail extraction returns no result for it. *)
Theorem unusable_detail_response_gives_no_result
    w url product tr responses response :
  goto_answer w (at_goto tr) url = Returned responses ->
  wheel_answer w (at_wheel tr url) 0 3000 = Returned tt ->
  query_answer w (at_query tr url 3000) PRODUCT_DETAIL_QUERY
  = Returned response ->
  clashes_with_identity response = true ->
  fst (fetch_product_details w url product tr) = Returned None.
Proof.
  unfold at_goto, at_wheel, at_query. intros Hg Hw Hq Hc.
  assert (Hm : forall pb, exists e,
               ProductDetails_merge pb response = Raised e).
  { intros pb. unfold ProductDetails_merge.
    destruct response as [| |l|dict]; cbn in Hc; try (eexists; reflexivity).
    rewrite Hc. eexists; reflexivity. }
  unfold fetch_product_details. run. cbn. tidy.
  rewrite Hg. tidy. rewrite Hw. tidy. rewrite Hq.
  destruct product as [p|].
  { destruct (Hm (mkProductBase (name p) (link p) (img p))) as [e ->].
    reflexivity. }
  destruct (query_answer w _ PRODUCT_INFO_QUERY) as [e|product_info];
    [reflexivity|].
  destruct (py_get product_info "product_name" PNone); [reflexivity|].
  destruct (py_get product_info "product_link" PNone); [reflexivity|].
  destruct (py_get product_info "product_img" PNone); [reflexivity|].
  destruct (ProductBase_init _ _ _) as [e|pb]; [reflexivity|].
  destruct (Hm pb) as [e ->]. reflexivity.
Qed.

Lemma unusable_detail_response_gives_no_result_witness :
  fst (fetch_product_details Site.echo_shop "https://demandvape.com/a"
         (Some (base Site.details_A)) [])
  = Returned None.
Proof.
  apply (unusable_detail_response_gives_no_result Site.echo_shop
           "https://demandvape.com/a" (Some (base Site.details_A)) [] []
           (PDict [("name", PStr "A"); ("Battery", PStr "650mAh")]));
    reflexivity.
Defined.

(** X10: in the fan-out, a product whose detail page cannot be navigated
    is caught by the task itself: the failure is logged without the name
    of the product, the product yields no result, and the request returns
    the results of the other products. *)
Theorem failed_navigation_omits_product
    w url existing tr products t1 before p after r1 t2 e :
  get_product_names w url (in_context tr) = (Returned (Some products), t1) ->
  filter (is_new existing) products = before ++ p :: after ->
  gather (map (fetch_product w) before) t1 = (Returned r1, t2) ->
  goto_answer w (at_goto t2) (link p) = Raised e ->
  exists r2,
    fetch_product w p t2
    = (Returned None, at_wheel t2 (link p) ++ [processing_error e])
    /\ fst (gather (map (fetch_product w) after)
              (at_wheel t2 (link p) ++ [processing_error e]))
       = Returned r2
    /\ fst (get_names_and_fetch w url existing tr)
       = Returned (not_none r1 ++ not_none r2).
Proof.
  unfold at_goto, at_wheel. intros Hl Hnew Hbefore Hg.
  assert (Hp : fetch_product w p t2
               = (Returned None,
                  (t2 ++ [ENewPage; EGoto (link p)]) ++ [processing_error e])).
  { unfold fetch_product, fetch_product_details, processing_error.
    run. cbn. tidy. rewrite Hg. tidy. reflexivity. }
  destruct (gather_fetch_product w after
              ((t2 ++ [ENewPage; EGoto (link p)]) ++ [processing_error e]))
    as (r2 & t4 & Hafter & _).
  exists r2. split; [exact Hp|]. split; [now rewrite Hafter|].
  rewrite get_names_and_fetch_stages, Hl, Hnew, map_app.
  rewrite (gather_app _ _ _ _ _ Hbefore). cbn [map gather].
  unfold bind at 1. rewrite Hp. unfold bind at 1. rewrite Hafter.
  unfold ret. cbn. now rewrite not_none_app.
Qed.

Lemma failed_navigation_omits_product_witness :
  exists r2,
    fetch_product Site.broken_link_shop (base Site.details_A)
      (snd (get_product_names Site.broken_link_shop Site.listing_url
              (in_context [])))
    = (Returned None,
       at_wheel (snd (get_product_names Site.broken_link_shop
                        Site.listing_url (in_context [])))
         "https://demandvape.com/a"
       ++ [processing_error (ExternalError "net::ERR_ABORTED")])
    /\ fst (gather (map (fetch_product Site.broken_link_shop)
                     [base Site.details_B])
              (at_wheel (snd (get_product_names Site.broken_link_shop
                                Site.listing_url (in_context [])))
                 "https://demandvape.com/a"
               ++ [processing_error (ExternalError "net::ERR_ABORTED")]))
       = Returned r2
    /\ fst (get_names_and_fetch Site.broken_link_shop Site.listing_url
              ["C"] [])
       = Returned (not_none [] ++ not_none r2).
Proof.
  eapply (failed_navigation_omits_product Site.broken_link_shop
            Site.listing_url ["C"] [] _ _ [] (base Site.details_A)
            [base Site.details_B] [] _
            (ExternalError "net::ERR_ABORTED"));
    reflexivity.
Defined.

(** ** Search *)

(** X11: when several responses for the search URL are redirects, the
    last one decides: detail extraction runs on the location it names, and
    redirects of other URLs do not count. *)
Theorem last_redirect_decides_target w keyword existing tr before r after :
  goto_answer w (at_search tr) (search_url_of keyword)
  = Returned (before ++ r :: after) ->
  wait_answer w (at_wait tr (search_url_of keyword)) "load" = Returned tt ->
  is_redirect_of (search_url_of keyword) r = true ->
  existsb (is_redirect_of (search_url_of keyword)) after = false ->
  search_and_scrape w keyword existing tr
  = redirect_result
      (fetch_product_details w
         (headers_get (resp_headers r) "location" (search_url_of keyword))
         None (at_branch tr (search_url_of keyword))).
Proof.
  intros Hg Hw Hr Hafter.
  pose proof (observe_redirect_last _ before r after Hr Hafter) as Ho.
  rewrite (search_and_scrape_redirected w keyword existing tr _ Hg Hw);
    now rewrite Ho.
Qed.

Lemma last_redirect_decides_target_witness :
  search_and_scrape Site.twice_redirecting_shop "A" [] []
  = redirect_result
      (fetch_product_details Site.twice_redirecting_shop
         "https://demandvape.com/a" None (at_branch [] (search_url_of "A"))).
Proof.
  apply (last_redirect_decides_target Site.twice_redirecting_shop "A" [] []
           [Site.redirect_to "https://demandvape.com/b" "A"]
           (Site.redirect_to "https://demandvape.com/a" "A")
           [Site.redirect_to "https://demandvape.com/c" "other"]);
    reflexivity.
Defined.

(** X12: once the search was redirected, the list of known names plays no
    part: the request does the same, and answers the same, for any two
    lists. *)
Theorem redirect_ignores_known_names
    w keyword existing existing' tr responses :
  goto_answer w (at_search tr) (search_url_of keyword) = Returned responses ->
  existsb (is_redirect_of (search_url_of keyword)) responses = true ->
  search_and_scrape w keyword existing tr
  = search_and_scrape w keyword existing' tr.
Proof.
  intros Hg Hex. rewrite !search_and_scrape_stages. cbv zeta.
  rewrite Hg, observe_redirect_flag, Hex. reflexivity.
Qed.

Lemma redirect_ignores_known_names_witness :
  search_and_scrape Site.redirecting_shop "A" [] []
  = search_and_scrape Site.redirecting_shop "A" ["A"; "B"] [].
Proof.
  apply (redirect_ignores_known_names Site.redirecting_shop "A" [] ["A"; "B"]
           [] [Site.redirect_to "https://demandvape.com/a" "A"]);
    reflexivity.
Defined.

(** X13: when the navigation to the search URL raises, or the wait for
    the page to load does, /search-and-scrape answers an HTTP 500 with the
    text of that exception; nothing was queried, and the browser was not
    closed. *)
Theorem failed_search_navigation_answers_500 w request tr e :
  (goto_answer w (at_search tr) (search_url_of (search_keyword request))
   = Raised e ->
   search_and_scrape_endpoint w request tr
   = (Raised (HTTPException 500 (exn_str e)),
      at_wait tr (search_url_of (search_keyword request))
      ++ [EPlaywrightStop]))
  /\ (forall responses,
        goto_answer w (at_search tr) (search_url_of (search_keyword request))
        = Returned responses ->
        wait_answer w (at_wait tr (search_url_of (search_keyword request)))
          "load" = Raised e ->
        search_and_scrape_endpoint w request tr
        = (Raised (HTTPException 500 (exn_str e)),
           at_branch tr (search_url_of (search_keyword request))
           ++ [EPlaywrightStop])).
Proof.
  unfold search_and_scrape_endpoint, to_http_500, try_except, lift.
  split.
  - intros Hg. rewrite search_and_scrape_stages. cbv zeta. now rewrite Hg.
  - intros responses Hg Hw. rewrite search_and_scrape_stages. cbv zeta.
    now rewrite Hg, Hw.
Qed.

Lemma failed_search_navigation_answers_500_witness :
  search_and_scrape_endpoint Site.unreachable (mkSearchRequest "pod" []) []
  = (Raised (HTTPException 500 "net::ERR_CONNECTION_REFUSED"),
     at_wait [] (search_url_of "pod") ++ [EPlaywrightStop])
  /\ search_and_scrape_endpoint Site.stalled_shop (mkSearchRequest "pod" [])
       []
     = (Raised (HTTPException 500 "Timeout 30000ms exceeded"),
        at_branch [] (search_url_of "pod") ++ [EPlaywrightStop]).
Proof.
  split.
  - apply (proj1 (failed_search_navigation_answers_500 Site.unreachable
                    (mkSearchRequest "pod" []) []
                    (ExternalError "net::ERR_CONNECTION_REFUSED"))).
    reflexivity.
  - apply (proj2 (failed_search_navigation_answers_500 Site.stalled_shop
                    (mkSearchRequest "pod" []) [] Site.timeout_error) []);
      reflexivity.
Defined.



(** ** The search URL *)

Lemma hex_digit_unreserved c :
  is_unreserved (hex_digit (Z.of_nat (nat_of_ascii c) / 16)) = true
  /\ is_unreserved (hex_digit (Z.of_nat (nat_of_ascii c) mod 16)) = true.
Proof.
  destruct c as [[] [] [] [] [] [] [] []]; split; vm_compute; reflexivity.
Qed.

Lemma quote_chars s c :
  In c (list_ascii_of_string (quote s)) ->
  is_unreserved c = true \/ c = "%"%char.
Proof.
  induction s as [|a s IH]; cbn [quote]; [intros []|].
  destruct (is_unreserved a) eqn:Ea; cbn [list_ascii_of_string In].
  - intros [<-|H]; auto.
  - destruct (hex_digit_unreserved a) as [H1 H2].
    intros [<-|[<-|[<-|H]]]; auto.
Qed.

(** X15: in the search URL the keyword is escaped: what it contributes
    holds no [&], [=], [#], [?], [+] and no space, so a keyword can neither
    end the search parameter nor add one. *)
Theorem keyword_cannot_break_query keyword c :
  In c (list_ascii_of_string (quote keyword)) ->
  ~ In c (list_ascii_of_string "&=#?+ ").
Proof.
  intros H Hbad. apply quote_chars in H.
  cbn in Hbad.
  repeat (destruct Hbad as [<-|Hbad];
          [destruct H as [H|H]; vm_compute in H; discriminate|]).
  exact Hbad.
Qed.

Lemma keyword_cannot_break_query_witness :
  quote "a&b=c" = "a%26b%3Dc"
  /\ ~ In "%"%char (list_ascii_of_string "&=#?+ ").
Proof.
  split; [reflexivity|].
  apply (keyword_cannot_break_query "a&b=c" "%"%char).
  vm_compute. right; left; reflexivity.
Defined.

Lemma percent_is_escaped c : is_unreserved c = true -> Ascii.eqb c "%" = false.
Proof.
  destruct (Ascii.eqb_spec c "%"%char) as [->|]; [discriminate | reflexivity].
Qed.

Lemma hex_round_trip c :
  ascii_of_nat
    (Z.to_nat (16 * hex_value (hex_digit (Z.of_nat (nat_of_ascii c) / 16))
               + hex_value (hex_digit (Z.of_nat (nat_of_ascii c) mod 16))))
  = c.
Proof.
  destruct c as [[] [] [] [] [] [] [] []]; vm_compute; reflexivity.
Qed.

Lemma unquote_quote s : unquote (quote s) = s.
Proof.
  induction s as [|c s IH]; [reflexivity|]. cbn [quote].
  destruct (is_unreserved c) eqn:Ec.
  - cbn [unquote]. rewrite (percent_is_escaped c Ec). now rewrite IH.
  - cbn [unquote]. change (Ascii.eqb "%" "%") with true. cbv beta iota.
    now rewrite hex_round_trip, IH.
Qed.

Lemma append_inv_head (a x y : string) :
  (a ++ x = a ++ y)%string -> x = y.
Proof.
  induction a as [|c a IH]; cbn; [easy|].
  intros H. injection H as H. auto.
Qed.

Lemma append_length (a b : string) :
  String.length (a ++ b) = (String.length a + String.length b)%nat.
Proof.
  induction a as [|c a IH]; cbn; [reflexivity | now rewrite IH].
Qed.

Lemma append_inv_tail (x y s : string) :
  (x ++ s = y ++ s)%string -> x = y.
Proof.
  revert y. induction x as [|c x IH]; intros [|c' y] H.
  - reflexivity.
  - apply (f_equal String.length) in H. rewrite !append_length in H.
    cbn in H. lia.
  - apply (f_equal String.length) in H. rewrite !append_length in H.
    cbn in H. lia.
  - cbn in H. injection H as -> H. f_equal. now apply IH.
Qed.

(** X16: the search URL determines the keyword: two searches with
    different keywords navigate to different URLs. *)
Theorem search_url_determines_keyword keyword keyword' :
  keyword <> keyword' -> search_url_of keyword <> search_url_of keyword'.
Proof.
  unfold search_url_of. intros Hk H. apply Hk.
  apply append_inv_head, append_inv_tail in H.
  rewrite <- (unquote_quote keyword), <- (unquote_quote keyword').
  now rewrite H.
Qed.

Lemma search_url_determines_keyword_witness :
  search_url_of "disposable pod" <> search_url_of "disposable+pod".
Proof.
  apply (search_url_determines_keyword "disposable pod" "disposable+pod").
  discriminate.
Defined.
